(** * Multilingual sentiment analysis: a shallow embedding of the label
    normalizer, the transformer-backed analyzer, the langdetect wrapper, the
    rule-based fallback classifiers and the CSV batch entry points.

    Conventions of the embedding.
    - A Python [str] is the list of its Unicode code points ([N]).  String
      constants of the program are written [lit "..."].
    - [str.lower] and [str.upper] are modelled on the ASCII letters; every other
      code point is left unchanged.
    - A Python [float] is modelled by an exact rational ([Q]); rounding of
      binary64 arithmetic is outside the model, sums are compared with [==].
    - A Python [dict] is an insertion-ordered association list, as iteration
      order is observable through [max].
    - Code that can raise runs in the [result] monad; [try ... except Exception]
      is [try_except]. *)

From Stdlib Require Import List String Ascii Bool NArith ZArith QArith Qabs Qminmax Lia Lqa.
From Stdlib Require Import Permutation.
Import ListNotations.

Close Scope Q_scope.

(* ================================================================= *)
(** ** Python strings *)

Module PyStr.

Definition codepoint := N.
Definition str := list codepoint.

(** A program constant: an ASCII literal as a Python string. *)
Definition lit (s : string) : str := map N_of_ascii (list_ascii_of_string s).

Definition is_ascii_upper (c : codepoint) : bool := ((65 <=? c) && (c <=? 90))%N.
Definition is_ascii_lower (c : codepoint) : bool := ((97 <=? c) && (c <=? 122))%N.

Definition lower_cp (c : codepoint) : codepoint :=
  if is_ascii_upper c then (c + 32)%N else c.
Definition upper_cp (c : codepoint) : codepoint :=
  if is_ascii_lower c then (c - 32)%N else c.

(** [s.lower()] and [s.upper()]. *)
Definition lower (s : str) : str := map lower_cp s.
Definition upper (s : str) : str := map upper_cp s.

(** [c.isascii() and c.isalpha()]. *)
Definition is_ascii_alpha (c : codepoint) : bool :=
  is_ascii_upper c || is_ascii_lower c.

(** [lo <= c <= hi] on one-character strings. *)
Definition in_range (lo hi c : codepoint) : bool := ((lo <=? c) && (c <=? hi))%N.

(** [c.isspace()]: the code points removed by [str.strip()]. *)
Definition isspace (c : codepoint) : bool :=
  (in_range 9 13 c || in_range 28 32 c || (c =? 133) || (c =? 160)
   || (c =? 5760) || in_range 8192 8202 c || (c =? 8232) || (c =? 8233)
   || (c =? 8239) || (c =? 8287) || (c =? 12288))%N.

Fixpoint lstrip (s : str) : str :=
  match s with
  | [] => []
  | c :: t => if isspace c then lstrip t else s
  end.

Definition rstrip (s : str) : str := rev (lstrip (rev s)).

(** [s.strip()]. *)
Definition strip (s : str) : str := rstrip (lstrip s).

(** Truthiness of a string: [not s] is [is_empty s]. *)
Definition is_empty (s : str) : bool :=
  match s with [] => true | _ :: _ => false end.

(** The guard [not text or not text.strip()]. *)
Definition is_blank (text : str) : bool :=
  is_empty text || is_empty (strip text).

Fixpoint eqb (a b : str) : bool :=
  match a, b with
  | [], [] => true
  | x :: a', y :: b' => (x =? y)%N && eqb a' b'
  | _, _ => false
  end.

(** [x in [s1, s2, ...]] for a list of strings. *)
Definition mem (x : str) (l : list str) : bool := existsb (eqb x) l.

Fixpoint startswith (p s : str) : bool :=
  match p, s with
  | [], _ => true
  | x :: p', y :: s' => (x =? y)%N && startswith p' s'
  | _ :: _, [] => false
  end.

(** [needle in hay] for strings: substring containment. *)
Fixpoint contains (needle hay : str) : bool :=
  startswith needle hay ||
  match hay with
  | [] => false
  | _ :: t => contains needle t
  end.

(** [text[:n]]. *)
Definition slice_to (n : nat) (s : str) : str := firstn n s.

End PyStr.
Import PyStr.

(* ================================================================= *)
(** ** Python values, dictionaries and exceptions *)

Module Py.

(** Subclasses of [Exception] that the modelled code can meet. *)
Inductive exn_class :=
| LangDetectError
| IndexError
| KeyError
| TypeError
| ValueError
| OtherException.

(** An exception object; [exn_msg] is what [str(e)] returns. *)
Record exn := Exn { exn_cls : exn_class; exn_msg : str }.

Inductive result (A : Type) : Type :=
| Ok (a : A)
| Raise (e : exn).
Arguments Ok {A} a.
Arguments Raise {A} e.

Definition bind {A B} (m : result A) (k : A -> result B) : result B :=
  match m with
  | Ok a => k a
  | Raise e => Raise e
  end.

(** [try: body except Exception as e: handler(e)]. *)
Definition try_except {A} (body : result A) (handler : exn -> result A) : result A :=
  match body with
  | Ok a => Ok a
  | Raise e => handler e
  end.

(** An insertion-ordered dictionary with string keys. *)
Definition dict (V : Type) := list (str * V).

Fixpoint dict_lookup {V} (k : str) (d : dict V) : option V :=
  match d with
  | [] => None
  | (k', v) :: rest => if eqb k k' then Some v else dict_lookup k rest
  end.

(** [k in d]. *)
Definition dict_has {V} (k : str) (d : dict V) : bool :=
  match dict_lookup k d with Some _ => true | None => false end.

(** [d.get(k, default)]. *)
Definition dict_get {V} (k : str) (d : dict V) (default : V) : V :=
  match dict_lookup k d with Some v => v | None => default end.

(** [d[k] = v]: an existing key keeps its position, a new key goes last. *)
Fixpoint dict_set {V} (k : str) (v : V) (d : dict V) : dict V :=
  match d with
  | [] => [(k, v)]
  | (k', v') :: rest =>
      if eqb k k' then (k', v) :: rest else (k', v') :: dict_set k v rest
  end.

Definition dict_keys {V} (d : dict V) : list str := map fst d.

#[warnings="-register-all"]
Inductive pyval :=
| VNone
| VBool (b : bool)
| VInt (z : Z)
| VFloat (q : Q)
| VStr (s : str)
| VDict (d : list (str * pyval))
| VList (l : list pyval).

Definition pydict := dict pyval.

(** [d[k]], raising [KeyError] on a missing key; the exception carries the
    key itself, which [str(e)] shows between quotes. *)
Definition getitem (d : pydict) (k : str) : result pyval :=
  match dict_lookup k d with
  | Some v => Ok v
  | None => Raise (Exn KeyError k)
  end.

(** Truthiness of a value, as tested by [if v:] and [v if ... else ...]. *)
Definition truthy (v : pyval) : bool :=
  match v with
  | VNone => false
  | VBool b => b
  | VInt z => negb (z =? 0)%Z
  | VFloat q => negb (Qeq_bool q 0)
  | VStr s => negb (is_empty s)
  | VDict d => match d with [] => false | _ => true end
  | VList l => match l with [] => false | _ => true end
  end.

End Py.
Import Py.

Declare Scope py_scope.
Notation "x <- m ;; k" := (bind m (fun x => k))
  (at level 61, m at next level, right associativity) : py_scope.
Open Scope py_scope.

(* ================================================================= *)
(** ** sentiment_analyzer.py *)

Module SentimentAnalyzerPy.

Definition POSITIVE : str := lit "POSITIVE".
Definition NEGATIVE : str := lit "NEGATIVE".
Definition NEUTRAL : str := lit "NEUTRAL".

(** One entry of the pipeline output: [{'label': ..., 'score': ...}]. *)
Record raw_result := RawResult { label : str; score : Q }.

(** An element of the list returned by the pipeline: an entry, or (with
    [return_all_scores=True]) the nested list of the entries of one input. *)
Inductive clf_item :=
| Entry (r : raw_result)
| Inner (rs : list raw_result).

(** The object: [self.classifier] is the loaded HuggingFace pipeline, an
    external function that may raise. *)
Record SentimentAnalyzer := {
  model_name : str;
  classifier : str -> result (list clf_item)
}.

(** [normalized_scores[k] = normalized_scores.get(k, 0) + score]. *)
Definition accumulate (k : str) (s : Q) (d : dict Q) : dict Q :=
  dict_set k (dict_get k d 0 + s)%Q d.

(** The body of the [for result in results] loop. *)
Definition normalize_step (normalized_scores : dict Q) (result : raw_result)
  : dict Q :=
  let label := upper (label result) in
  let score := score result in
  if mem label [lit "POSITIVE"; lit "POS"; lit "LABEL_2"; lit "5 STARS"; lit "4 STARS"]
  then accumulate POSITIVE score normalized_scores
  else if mem label [lit "NEGATIVE"; lit "NEG"; lit "LABEL_0"; lit "1 STAR"; lit "2 STARS"]
  then accumulate NEGATIVE score normalized_scores
  else if mem label [lit "NEUTRAL"; lit "NEU"; lit "LABEL_1"; lit "3 STARS"]
  then accumulate NEUTRAL score normalized_scores
  else
    if contains (lit "positive") (lower label) || contains (lit "pos") (lower label)
    then accumulate POSITIVE score normalized_scores
    else if contains (lit "negative") (lower label) || contains (lit "neg") (lower label)
    then accumulate NEGATIVE score normalized_scores
    else accumulate NEUTRAL score normalized_scores.

(** The body of the [for sentiment in [...]] loop. *)
Definition ensure_key (normalized_scores : dict Q) (sentiment : str) : dict Q :=
  if negb (dict_has sentiment normalized_scores)
  then dict_set sentiment 0%Q normalized_scores
  else normalized_scores.

Definition _normalize_sentiment_labels (results : list raw_result) : dict Q :=
  let normalized_scores := fold_left normalize_step results [] in
  fold_left ensure_key [POSITIVE; NEGATIVE; NEUTRAL] normalized_scores.

(** [a < b] on scores. *)
Definition Qlt_bool (a b : Q) : bool := negb (Qle_bool b a).

(** [max(items, key=lambda x: x[1])]: the first item whose value is not
    exceeded by a later one. *)
Fixpoint max_from (best : str * Q) (items : list (str * Q)) : str * Q :=
  match items with
  | [] => best
  | it :: rest =>
      if Qlt_bool (snd best) (snd it) then max_from it rest else max_from best rest
  end.

Definition py_max (items : list (str * Q)) : result (str * Q) :=
  match items with
  | [] => Raise (Exn ValueError (lit "max() arg is an empty sequence"))
  | it :: rest => Ok (max_from it rest)
  end.

(** [results[0]]. *)
Definition first_item (results : list clf_item) : result clf_item :=
  match results with
  | [] => Raise (Exn IndexError (lit "list index out of range"))
  | x :: _ => Ok x
  end.

(** Reading the entries: [result['label']] on a nested list raises. *)
Fixpoint as_entries (results : list clf_item) : result (list raw_result) :=
  match results with
  | [] => Ok []
  | Entry r :: rest => rs <- as_entries rest ;; Ok (r :: rs)
  | Inner _ :: _ =>
      Raise (Exn TypeError (lit "list indices must be integers or slices, not str"))
  end.

(** [if isinstance(results[0], list): results = results[0]], followed by the
    reading of the entries. *)
Definition unwrap_results (results : list clf_item) : result (list raw_result) :=
  first <- first_item results ;;
  match first with
  | Inner rs => Ok rs
  | Entry _ => as_entries results
  end.

Definition scores_value (d : dict Q) : pyval :=
  VDict (map (fun kv => (fst kv, VFloat (snd kv))) d).

Definition neutral_only : dict Q :=
  [(POSITIVE, 0%Q); (NEGATIVE, 0%Q); (NEUTRAL, 1%Q)].

Definition sentiment_dict (sentiment : str) (confidence : Q) (all_scores : dict Q)
  (error : pyval) : pydict :=
  [(lit "sentiment", VStr sentiment);
   (lit "confidence", VFloat confidence);
   (lit "all_scores", scores_value all_scores);
   (lit "error", error)].

(** [text.strip()] followed by the truncation to 512 characters. *)
Definition prepare_text (text : str) : str :=
  let text := strip text in
  if (512 <? List.length text)%nat then slice_to 512 text else text.

Definition analyze_sentiment (self : SentimentAnalyzer) (text : str)
  : result pydict :=
  if is_blank text then
    Ok (sentiment_dict NEUTRAL 0%Q neutral_only (VStr (lit "Empty text provided")))
  else
    try_except
      (let text := prepare_text text in
       results <- classifier self text ;;
       results <- unwrap_results results ;;
       let normalized_scores := _normalize_sentiment_labels results in
       max_sentiment <- py_max normalized_scores ;;
       let predicted_sentiment := fst max_sentiment in
       let confidence := (snd max_sentiment * 100)%Q in
       Ok (sentiment_dict predicted_sentiment confidence normalized_scores VNone))
      (fun e =>
         let error_message := lit "Error analyzing sentiment: " ++ exn_msg e in
         Ok (sentiment_dict NEUTRAL 0%Q neutral_only (VStr error_message))).

End SentimentAnalyzerPy.
Import SentimentAnalyzerPy.

(* ================================================================= *)
(** ** language_detector.py *)

Module LanguageDetectorPy.

(** A [langdetect] result: [Language(lang, prob)]. *)
Record Language := { lang : str; prob : Q }.

Record LanguageDetector := {
  language_names : dict str;
  supported_languages : dict str
}.

(** [LanguageDetector.__init__]. *)
Definition init : LanguageDetector := {|
  language_names := [
   (lit "en", lit "English"); (lit "hi", lit "Hindi");
   (lit "te", lit "Telugu"); (lit "ta", lit "Tamil");
   (lit "kn", lit "Kannada"); (lit "ml", lit "Malayalam");
   (lit "bn", lit "Bengali"); (lit "gu", lit "Gujarati");
   (lit "mr", lit "Marathi"); (lit "pa", lit "Punjabi");
   (lit "or", lit "Odia"); (lit "as", lit "Assamese");
   (lit "ur", lit "Urdu"); (lit "ne", lit "Nepali");
   (lit "si", lit "Sinhala"); (lit "my", lit "Myanmar");
   (lit "th", lit "Thai"); (lit "vi", lit "Vietnamese");
   (lit "id", lit "Indonesian"); (lit "ms", lit "Malay");
   (lit "tl", lit "Filipino"); (lit "zh-cn", lit "Chinese (Simplified)");
   (lit "zh-tw", lit "Chinese (Traditional)"); (lit "ja", lit "Japanese");
   (lit "ko", lit "Korean"); (lit "ar", lit "Arabic");
   (lit "fa", lit "Persian"); (lit "he", lit "Hebrew");
   (lit "tr", lit "Turkish"); (lit "ru", lit "Russian");
   (lit "uk", lit "Ukrainian"); (lit "bg", lit "Bulgarian");
   (lit "hr", lit "Croatian"); (lit "cs", lit "Czech");
   (lit "da", lit "Danish"); (lit "nl", lit "Dutch");
   (lit "et", lit "Estonian"); (lit "fi", lit "Finnish");
   (lit "fr", lit "French"); (lit "de", lit "German");
   (lit "el", lit "Greek"); (lit "hu", lit "Hungarian");
   (lit "is", lit "Icelandic"); (lit "ga", lit "Irish");
   (lit "it", lit "Italian"); (lit "lv", lit "Latvian");
   (lit "lt", lit "Lithuanian"); (lit "mk", lit "Macedonian");
   (lit "mt", lit "Maltese"); (lit "no", lit "Norwegian");
   (lit "pl", lit "Polish"); (lit "pt", lit "Portuguese");
   (lit "ro", lit "Romanian"); (lit "sk", lit "Slovak");
   (lit "sl", lit "Slovenian"); (lit "es", lit "Spanish");
   (lit "sv", lit "Swedish"); (lit "cy", lit "Welsh")];
  supported_languages :=
    [(lit "en", lit "English"); (lit "hi", lit "Hindi"); (lit "te", lit "Telugu")]
|}.

Definition language_dict (language language_code : str) (confidence : Q)
  (is_supported : bool) (error : pyval) : pydict :=
  [(lit "language", VStr language);
   (lit "language_code", VStr language_code);
   (lit "confidence", VFloat confidence);
   (lit "is_supported", VBool is_supported);
   (lit "error", error)].

Definition unknown_language (error : str) : pydict :=
  language_dict (lit "Unknown") (lit "unknown") 0%Q false (VStr error).

(** [self.language_names.get(code, f'Unknown ({code})')]. *)
Definition language_name (self : LanguageDetector) (code : str) : str :=
  dict_get code (language_names self) (lit "Unknown (" ++ code ++ lit ")").

Definition detection_entry (self : LanguageDetector) (l : Language) : pyval :=
  VDict [(lit "language", VStr (language_name self (lang l)));
         (lit "language_code", VStr (lang l));
         (lit "confidence", VFloat (prob l))].

Section Detect.

(** [langdetect.detect_langs], an external function that may raise. *)
Variable detect_langs : str -> result (list Language).

Definition detect_language (self : LanguageDetector) (text : str)
  : result pydict :=
  if is_blank text then Ok (unknown_language (lit "Empty text provided"))
  else
    try_except
      (let text := strip text in
       language_probabilities <- detect_langs text ;;
       match language_probabilities with
       | [] => Ok (unknown_language (lit "Could not detect language"))
       | top_language :: _ =>
           let language_code := lang top_language in
           let confidence := prob top_language in
           let language_name := language_name self language_code in
           let is_supported := dict_has language_code (supported_languages self) in
           Ok [(lit "language", VStr language_name);
               (lit "language_code", VStr language_code);
               (lit "confidence", VFloat confidence);
               (lit "is_supported", VBool is_supported);
               (lit "all_detections",
                 VList (map (detection_entry self) (firstn 3 language_probabilities)));
               (lit "error", VNone)]
       end)
      (fun e =>
         match exn_cls e with
         | LangDetectError =>
             Ok (unknown_language (lit "Language detection error: " ++ exn_msg e))
         | _ =>
             Ok (unknown_language
                   (lit "Unexpected error in language detection: " ++ exn_msg e))
         end).

End Detect.

End LanguageDetectorPy.
Import LanguageDetectorPy.

(* ================================================================= *)
(** ** simple_app.py: the rule-based classifiers *)

Module SimpleApp.

Definition positive_words : list str :=
  [lit "good"; lit "great"; lit "excellent"; lit "amazing"; lit "wonderful";
    lit "fantastic"; lit "awesome"; lit "love"; lit "like"; lit "happy";
    lit "best"; lit "perfect"; lit "brilliant"; lit "outstanding";
    lit "superb"; lit "marvelous"; lit "terrific"; lit "fabulous";
    lit "accha"; lit "achha"; lit "bahut"; lit "sundar"; lit "khushi";
    lit "prasanna"; lit "uttam"; lit "shandar"; lit "bagundi"; lit "manchidi";
    lit "santosham"; lit "bavundi"; lit "chala"; lit "bagunna"].

Definition negative_words : list str :=
  [lit "bad"; lit "terrible"; lit "awful"; lit "horrible"; lit "hate";
    lit "dislike"; lit "sad"; lit "angry"; lit "worst"; lit "poor";
    lit "disappointing"; lit "disgusting"; lit "pathetic"; lit "useless";
    lit "annoying"; lit "frustrating"; lit "bura"; lit "kharab"; lit "ganda";
    lit "dukh"; lit "pareshani"; lit "galat"; lit "bekaar"; lit "chedu";
    lit "daridram"; lit "kastam"; lit "badha"; lit "kopam"; lit "vishaadam"].

(** [sum(1 for word in words if word in text)]. *)
Definition count_words (words : list str) (text : str) : Z :=
  Z.of_nat (List.length (filter (fun word => contains word text) words)).

Definition simple_sentiment_analysis (text : str) : pydict :=
  if is_empty text then
    [(lit "sentiment", VStr (lit "NEUTRAL")); (lit "confidence", VFloat 0%Q)]
  else
    let text := lower text in
    let positive_count := count_words positive_words text in
    let negative_count := count_words negative_words text in
    let '(sentiment, confidence) :=
      if (positive_count >? negative_count)%Z then
        (lit "POSITIVE", Z.min 90 (60 + (positive_count - negative_count) * 10))
      else if (negative_count >? positive_count)%Z then
        (lit "NEGATIVE", Z.min 90 (60 + (negative_count - positive_count) * 10))
      else
        (lit "NEUTRAL", 50%Z) in
    [(lit "sentiment", VStr sentiment);
     (lit "confidence", VInt confidence);
     (lit "positive_score", VInt positive_count);
     (lit "negative_score", VInt negative_count)].

(** [sum(1 for c in text if p(c))]. *)
Definition count_chars (p : codepoint -> bool) (text : str) : Z :=
  Z.of_nat (List.length (filter p text)).

(** [(part / total) * 100] on floats. *)
Definition percentage (part total : Z) : Q :=
  (inject_Z part / inject_Z total * 100)%Q.

Definition language_result (language : str) (confidence : Q) : pydict :=
  [(lit "language", VStr language); (lit "confidence", VFloat confidence)].

Definition detect_language_simple (text : str) : pydict :=
  if is_empty text then language_result (lit "Unknown") 0%Q
  else
    let english_chars := count_chars is_ascii_alpha text in
    let hindi_chars := count_chars (in_range 0x0900 0x097F)%N text in
    let telugu_chars := count_chars (in_range 0x0C00 0x0C7F)%N text in
    let total_chars := (english_chars + hindi_chars + telugu_chars)%Z in
    if (total_chars =? 0)%Z then language_result (lit "Unknown") 0%Q
    else if (hindi_chars >? english_chars)%Z && (hindi_chars >? telugu_chars)%Z then
      language_result (lit "Hindi") (percentage hindi_chars total_chars)
    else if (telugu_chars >? english_chars)%Z && (telugu_chars >? hindi_chars)%Z then
      language_result (lit "Telugu") (percentage telugu_chars total_chars)
    else
      language_result (lit "English") (percentage english_chars total_chars).

End SimpleApp.
Import SimpleApp.

(* ================================================================= *)
(** ** The Streamlit page and pandas, as far as the batch code uses them *)

Module Streamlit.

(** A parsed CSV: the column names in order and the rows; a cell holds what
    [str(row[column])] returns. *)
Record DataFrame := { columns : list str; rows : list (list str) }.

(** An upload: [name] is [uploaded_file.name], [parsed] is the outcome of
    [pd.read_csv(uploaded_file)]. *)
Record UploadedFile := { name : str; parsed : result DataFrame }.

(** The calls that write to the page, in the order they are made. *)
Inductive st_call :=
| st_error (msg : str)
| st_info (msg : str)
| st_success (msg : str)
| st_subheader (msg : str)
| st_preview (df : DataFrame)
| st_progress (value : Q)
| st_status (i total : Z)
| st_empty
| st_dataframe (table : list pydict)
| st_metric (label : str) (value : Z)
| st_plotly_chart (sentiments : list pyval)
| st_download_button (label : str) (table : list pydict).

(** Code that writes to the page and may raise: the page written so far
    survives an exception. *)
Definition UI (A : Type) := list st_call -> list st_call * result A.

Definition ui_ret {A} (a : A) : UI A := fun page => (page, Ok a).

Definition ui_bind {A B} (m : UI A) (k : A -> UI B) : UI B :=
  fun page =>
    match m page with
    | (page', Ok a) => k a page'
    | (page', Raise e) => (page', Raise e)
    end.

Definition call (c : st_call) : UI unit := fun page => (page ++ [c], Ok tt).

Definition lift {A} (r : result A) : UI A := fun page => (page, r).

Definition ui_try {A} (body : UI A) (handler : exn -> UI A) : UI A :=
  fun page =>
    match body page with
    | (page', Ok a) => (page', Ok a)
    | (page', Raise e) => handler e page'
    end.

(** Running a page function on an empty page. *)
Definition run {A} (m : UI A) : list st_call * result A := m [].

(** [row[column]]. *)
Fixpoint row_get (cols : list str) (row : list str) (column : str) : result str :=
  match cols, row with
  | c :: cols', v :: row' => if eqb column c then Ok v else row_get cols' row' column
  | _, _ => Raise (Exn KeyError column)
  end.


(** [results_df[column]] for [results_df = pd.DataFrame(results)]: a frame
    built from no row has no column. *)
Definition frame_column (table : list pydict) (column : str) : result (list pyval) :=
  match table with
  | [] => Raise (Exn KeyError (lit "'" ++ column ++ lit "'"))
  | _ => Ok (map (fun r => dict_get column r VNone) table)
  end.

Definition is_str (s : str) (v : pyval) : bool :=
  match v with VStr s' => eqb s' s | _ => false end.

(** [len(results_df[results_df[column] == value])]. *)
Definition count_equal (table : list pydict) (column value : str) : result Z :=
  match frame_column table column with
  | Ok vs => Ok (Z.of_nat (List.length (filter (is_str value) vs)))
  | Raise e => Raise e
  end.

(** [v.get(k, default)] on a dictionary value. *)
Definition value_get (v : pyval) (k : str) (default : pyval) : result pyval :=
  match v with
  | VDict d => Ok (dict_get k d default)
  | _ => Raise (Exn OtherException (lit "object has no attribute 'get'"))
  end.

(** ['text' in col.lower()]. *)
Definition is_text_column (col : str) : bool := contains (lit "text") (lower col).

Definition no_text_column_message : str :=
  lit "No 'text' column found in the CSV file. Please ensure your CSV has a column containing text data.".

End Streamlit.
Import Streamlit.

Notation "x <~ m ;; k" := (ui_bind m (fun x => k))
  (at level 61, m at next level, right associativity) : py_scope.

(* ================================================================= *)
(** ** app.py: batch analysis with the transformer model *)

Module App.

Section Batch.

Variable detect_langs : str -> result (list Language).
Variable sentiment_analyzer : SentimentAnalyzer.
Variable language_detector : LanguageDetector.

(** The dictionary appended to [results] for one row. *)
Definition result_row (text : str) (detected_language sentiment_result : pydict)
  : result pydict :=
  language <- getitem detected_language (lit "language") ;;
  language_confidence <- getitem detected_language (lit "confidence") ;;
  error <- getitem sentiment_result (lit "error") ;;
  let failed := truthy error in
  sentiment <- (if failed then Ok (VStr (lit "ERROR"))
                else getitem sentiment_result (lit "sentiment")) ;;
  confidence <- (if failed then Ok (VInt 0)
                 else getitem sentiment_result (lit "confidence")) ;;
  let score_of k :=
    if failed then Ok (VInt 0)
    else (all_scores <- getitem sentiment_result (lit "all_scores") ;;
          value_get all_scores k (VInt 0)) in
  positive <- score_of POSITIVE ;;
  neutral <- score_of NEUTRAL ;;
  negative <- score_of NEGATIVE ;;
  Ok [(lit "Original_Text", VStr text);
      (lit "Detected_Language", language);
      (lit "Language_Confidence", language_confidence);
      (lit "Sentiment", sentiment);
      (lit "Sentiment_Confidence", confidence);
      (lit "Positive_Score", positive);
      (lit "Neutral_Score", neutral);
      (lit "Negative_Score", negative);
      (lit "Error", if failed then error else VNone)].

(** [for idx, row in df.iterrows()], from row [idx] on. *)
Fixpoint analyze_rows (df : DataFrame) (text_column : str) (total_rows : Z)
  (todo : list (list str)) (idx : Z) (results : list pydict)
  : UI (list pydict) :=
  match todo with
  | [] => ui_ret results
  | row :: rest =>
      text <~ lift (row_get (columns df) row text_column) ;;
      let progress := (inject_Z (idx + 1) / inject_Z total_rows)%Q in
      _ <~ call (st_progress progress) ;;
      _ <~ call (st_status (idx + 1) total_rows) ;;
      detected_language <~ lift (detect_language detect_langs language_detector text) ;;
      sentiment_result <~ lift (analyze_sentiment sentiment_analyzer text) ;;
      entry <~ lift (result_row text detected_language sentiment_result) ;;
      analyze_rows df text_column total_rows rest (idx + 1) (results ++ [entry])
  end.

(** What follows the loop: the result table, the summary and the download. *)
Definition show_results (results : list pydict) : UI unit :=
  _ <~ call st_empty ;;
  _ <~ call st_empty ;;
  _ <~ call (st_subheader (lit "Batch Analysis Results")) ;;
  _ <~ call (st_dataframe results) ;;
  positive_count <~ lift (count_equal results (lit "Sentiment") (lit "POSITIVE")) ;;
  _ <~ call (st_metric (lit "Positive") positive_count) ;;
  neutral_count <~ lift (count_equal results (lit "Sentiment") (lit "NEUTRAL")) ;;
  _ <~ call (st_metric (lit "Neutral") neutral_count) ;;
  negative_count <~ lift (count_equal results (lit "Sentiment") (lit "NEGATIVE")) ;;
  _ <~ call (st_metric (lit "Negative") negative_count) ;;
  error_count <~ lift (count_equal results (lit "Sentiment") (lit "ERROR")) ;;
  _ <~ call (st_metric (lit "Errors") error_count) ;;
  _ <~ (match results with
        | [] => ui_ret tt
        | _ => sentiments <~ lift (frame_column results (lit "Sentiment")) ;;
               call (st_plotly_chart sentiments)
        end) ;;
  call (st_download_button (lit "Download Results as CSV") results).

(** The function from the choice of the text column on. *)
Definition analyze_with_column (df : DataFrame) (text_column : str) : UI unit :=
  _ <~ call (st_info (lit "Using column '" ++ text_column ++ lit "' for analysis")) ;;
  _ <~ call (st_progress 0%Q) ;;
  _ <~ call st_empty ;;
  let total_rows := Z.of_nat (List.length (rows df)) in
  results <~ analyze_rows df text_column total_rows (rows df) 0%Z [] ;;
  show_results results.

Definition analyze_batch_text (uploaded_file : UploadedFile) : UI unit :=
  ui_try
    (df <~ lift (parsed uploaded_file) ;;
     let text_columns := filter is_text_column (columns df) in
     match text_columns with
     | [] => call (st_error no_text_column_message)
     | text_column :: _ => analyze_with_column df text_column
     end)
    (fun e => call (st_error (lit "Error processing CSV file: " ++ exn_msg e))).

End Batch.

End App.

(* ================================================================= *)
(** ** simple_app.py: the batch tab of [main] *)

Module SimpleBatch.

Definition result_row (text : str) (detected_language sentiment_result : pydict)
  : result pydict :=
  language <- getitem detected_language (lit "language") ;;
  language_confidence <- getitem detected_language (lit "confidence") ;;
  sentiment <- getitem sentiment_result (lit "sentiment") ;;
  confidence <- getitem sentiment_result (lit "confidence") ;;
  positive_words <- getitem sentiment_result (lit "positive_score") ;;
  negative_words <- getitem sentiment_result (lit "negative_score") ;;
  Ok [(lit "Original_Text", VStr text);
      (lit "Detected_Language", language);
      (lit "Language_Confidence", language_confidence);
      (lit "Sentiment", sentiment);
      (lit "Sentiment_Confidence", confidence);
      (lit "Positive_Words", positive_words);
      (lit "Negative_Words", negative_words)].

Fixpoint analyze_rows (df : DataFrame) (text_column : str) (total_rows : Z)
  (todo : list (list str)) (idx : Z) (results : list pydict)
  : UI (list pydict) :=
  match todo with
  | [] => ui_ret results
  | row :: rest =>
      text <~ lift (row_get (columns df) row text_column) ;;
      let progress := (inject_Z (idx + 1) / inject_Z total_rows)%Q in
      _ <~ call (st_progress progress) ;;
      _ <~ call (st_status (idx + 1) total_rows) ;;
      let detected_language := detect_language_simple text in
      let sentiment_result := simple_sentiment_analysis text in
      entry <~ lift (result_row text detected_language sentiment_result) ;;
      analyze_rows df text_column total_rows rest (idx + 1) (results ++ [entry])
  end.

Definition show_results (results : list pydict) : UI unit :=
  _ <~ call st_empty ;;
  _ <~ call st_empty ;;
  _ <~ call (st_subheader (lit "Batch Analysis Results")) ;;
  _ <~ call (st_dataframe results) ;;
  positive_count <~ lift (count_equal results (lit "Sentiment") (lit "POSITIVE")) ;;
  _ <~ call (st_metric (lit "Positive") positive_count) ;;
  neutral_count <~ lift (count_equal results (lit "Sentiment") (lit "NEUTRAL")) ;;
  _ <~ call (st_metric (lit "Neutral") neutral_count) ;;
  negative_count <~ lift (count_equal results (lit "Sentiment") (lit "NEGATIVE")) ;;
  _ <~ call (st_metric (lit "Negative") negative_count) ;;
  call (st_download_button (lit "Download Results as CSV") results).

(** The branch taken once a text column is found; [start] is the value of
    [st.button("Start Batch Analysis")]. *)
Definition analyze_with_column (df : DataFrame) (text_column : str) (start : bool)
  : UI unit :=
  _ <~ call (st_info (lit "Using column '" ++ text_column ++ lit "' for analysis")) ;;
  if start then
    _ <~ call (st_progress 0%Q) ;;
    _ <~ call st_empty ;;
    let total_rows := Z.of_nat (List.length (rows df)) in
    results <~ analyze_rows df text_column total_rows (rows df) 0%Z [] ;;
    show_results results
  else ui_ret tt.


End SimpleBatch.

(* ================================================================= *)
(** ** sentiment_analyzer.py: construction and batches *)

Module SentimentAnalyzerMore.

Definition default_model_name : str :=
  lit "cardiffnlp/twitter-xlm-roberta-base-sentiment".
Definition fallback_model_name : str :=
  lit "nlptown/bert-base-multilingual-uncased-sentiment".

Section Load.

(** [transformers.pipeline("sentiment-analysis", model=name, ...)]: loading
    a model gives a classifier or raises. *)
Variable pipeline : str -> result (str -> result (list clf_item)).

(** [_load_model]: the value assigned to [self.classifier]; the messages it
    prints are not modelled. *)
Definition _load_model (model_name : str)
  : result (str -> result (list clf_item)) :=
  try_except (pipeline model_name)
    (fun e =>
       try_except (pipeline fallback_model_name)
         (fun fallback_error => Raise fallback_error)).

(** [SentimentAnalyzer(model_name)]. *)
Definition __init__ (model_name : str) : result SentimentAnalyzer :=
  loaded <- _load_model model_name ;;
  Ok {| SentimentAnalyzerPy.model_name := model_name; classifier := loaded |}.

End Load.

(** The loop of [analyze_batch], from the texts still to do. *)
Fixpoint analyze_batch_from (self : SentimentAnalyzer) (texts : list str)
  (results : list pydict) : result (list pydict) :=
  match texts with
  | [] => Ok results
  | text :: rest =>
      result <- analyze_sentiment self text ;;
      analyze_batch_from self rest (results ++ [result])
  end.

Definition analyze_batch (self : SentimentAnalyzer) (texts : list str)
  : result (list pydict) :=
  analyze_batch_from self texts [].

End SentimentAnalyzerMore.

(* ================================================================= *)
(** ** language_detector.py: the other methods *)

Module LanguageDetectorMore.

Section Detect.

Variable detect_langs : str -> result (list Language).

Definition is_supported_language (self : LanguageDetector) (text : str)
  : result pyval :=
  detection_result <- detect_language detect_langs self text ;;
  getitem detection_result (lit "is_supported").

(** [self.supported_languages.copy()]. *)
Definition get_supported_languages (self : LanguageDetector) : dict str :=
  supported_languages self.

Fixpoint detect_batch_from (self : LanguageDetector) (texts : list str)
  (results : list pydict) : result (list pydict) :=
  match texts with
  | [] => Ok results
  | text :: rest =>
      result <- detect_language detect_langs self text ;;
      detect_batch_from self rest (results ++ [result])
  end.

Definition detect_batch (self : LanguageDetector) (texts : list str)
  : result (list pydict) :=
  detect_batch_from self texts [].







End Detect.

End LanguageDetectorMore.

(* ================================================================= *)
(** ** google_speech.py and voice_analyzer.py *)

Module Speech.

Definition get_language_code_for_speech (language_name : str) : str :=
  let language_mapping :=
    [(lit "English", lit "en-US"); (lit "Hindi", lit "hi-IN"); (lit "Telugu", lit "te-IN")] in
  dict_get language_name language_mapping (lit "en-US").

(** [analyze_voice_input]: the two analysis functions are arguments. *)
Definition analyze_voice_input (text : str)
  (simple_sentiment_analysis detect_language_simple : str -> pydict) : pyval :=
  if is_blank text then VNone
  else
    let detected_language := detect_language_simple text in
    let result := simple_sentiment_analysis text in
    VDict [(lit "text", VStr text);
           (lit "language", VDict detected_language);
           (lit "sentiment", VDict result)].

End Speech.

(* ================================================================= *)
(** ** simple_app.py: the sentiment arithmetic of the video tab *)

Module Video.

Definition positive_expressions : list str := [lit "Happy/Smiling"; lit "Surprised"].
Definition negative_expressions : list str :=
  [lit "Sad/Frowning"; lit "Angry"; lit "Fearful"; lit "Disgusted"].

(** The options of the [st.multiselect] of facial expressions. *)
Definition expression_options : list str :=
  [lit "Happy/Smiling"; lit "Sad/Frowning"; lit "Neutral"; lit "Surprised";
   lit "Angry"; lit "Fearful"; lit "Disgusted"].

(** [sum(1 for expr in facial_expressions if expr in expressions)]. *)
Definition count_in (expressions facial_expressions : list str) : Z :=
  Z.of_nat (List.length (filter (fun expr => mem expr expressions) facial_expressions)).

(** [facial_sentiment] and [facial_confidence] for a non-empty selection. *)
Definition facial (facial_expressions : list str) : str * Z :=
  let positive_count := count_in positive_expressions facial_expressions in
  let negative_count := count_in negative_expressions facial_expressions in
  if (positive_count >? negative_count)%Z then
    (lit "POSITIVE", Z.min 85 (60 + positive_count * 15))
  else if (negative_count >? positive_count)%Z then
    (lit "NEGATIVE", Z.min 85 (60 + negative_count * 15))
  else (lit "NEUTRAL", 70%Z).

Definition sentiment_scores : dict Z :=
  [(lit "POSITIVE", 1%Z); (lit "NEUTRAL", 0%Z); (lit "NEGATIVE", (-1)%Z)].

(** [sentiment_scores[k]]. *)
Definition score_of (k : str) : result Z :=
  match dict_lookup k sentiment_scores with
  | Some v => Ok v
  | None => Raise (Exn KeyError k)
  end.

(** [combined_score], [combined_sentiment] and [combined_confidence]. *)
Definition combined (audio_sentiment facial_sentiment : str) : result (Q * str * Q) :=
  let audio_weight := (6 # 10)%Q in
  let visual_weight := (4 # 10)%Q in
  audio_score <- score_of audio_sentiment ;;
  visual_score <- score_of facial_sentiment ;;
  let combined_score :=
    (inject_Z audio_score * audio_weight + inject_Z visual_score * visual_weight)%Q in
  if Qlt_bool (3 # 10) combined_score then
    Ok (combined_score, lit "POSITIVE",
        Qmin 90 (70 + Qabs combined_score * 20)%Q)
  else if Qlt_bool combined_score (- (3 # 10)) then
    Ok (combined_score, lit "NEGATIVE",
        Qmin 90 (70 + Qabs combined_score * 20)%Q)
  else Ok (combined_score, lit "NEUTRAL", 65%Q).

End Video.

(* ================================================================= *)
(** ** The documented behaviour, stated independently of the code *)

Module Documented.

(** [needle] occurs somewhere inside [hay]. *)
Definition substring (needle hay : str) : Prop :=
  exists before after, hay = before ++ needle ++ after.





(** The sum of a list of scores. *)
Definition total (scores : list Q) : Q := fold_right Qplus 0%Q scores.

(** The scores of the entries that a routing sends to bucket [k]. *)
Definition routed (route : str -> str) (k : str) (results : list raw_result)
  : list Q :=
  map score (filter (fun r => eqb (route (label r)) k) results).

(** The number of keywords of [words] that occur in [text], as a relation
    on the documented notion of containment. *)
Inductive keyword_hits (text : str) : list str -> Z -> Prop :=
| hits_nil : keyword_hits text [] 0%Z
| hits_in : forall w ws n,
    substring w text -> keyword_hits text ws n ->
    keyword_hits text (w :: ws) (n + 1)%Z
| hits_out : forall w ws n,
    ~ substring w text -> keyword_hits text ws n ->
    keyword_hits text (w :: ws) n.

(** A text made of whitespace only (the empty text included). *)
Definition whitespace_only (text : str) : Prop := Forall (fun c => isspace c = true) text.

End Documented.
Import Documented.

(** The bucket that one iteration of the normalizer's loop adds to: the
    branches of [normalize_step] read as a function of the raw label. *)
Definition step_bucket (raw : str) : str :=
  let label := upper raw in
  if mem label [lit "POSITIVE"; lit "POS"; lit "LABEL_2"; lit "5 STARS"; lit "4 STARS"]
  then POSITIVE
  else if mem label [lit "NEGATIVE"; lit "NEG"; lit "LABEL_0"; lit "1 STAR"; lit "2 STARS"]
  then NEGATIVE
  else if mem label [lit "NEUTRAL"; lit "NEU"; lit "LABEL_1"; lit "3 STARS"]
  then NEUTRAL
  else
    if contains (lit "positive") (lower label) || contains (lit "pos") (lower label)
    then POSITIVE
    else if contains (lit "negative") (lower label) || contains (lit "neg") (lower label)
    then NEGATIVE
    else NEUTRAL.

Definition canonical : list str := [POSITIVE; NEGATIVE; NEUTRAL].

(** The keys of a dictionary are distinct and inside [universe]. *)
Definition keys_within {V} (universe : list str) (d : dict V) : Prop :=
  NoDup (dict_keys d) /\ incl (dict_keys d) universe.

(** The result of [analyze_sentiment] after a failure. *)
Definition degraded_sentiment (message : str) : pydict :=
  sentiment_dict NEUTRAL 0%Q neutral_only (VStr message).

(** A character counted by [detect_language_simple]: an ASCII letter, a
    Devanagari or a Telugu code point. *)
Definition classified (c : codepoint) : bool :=
  (is_ascii_alpha c || in_range 0x0900 0x097F c || in_range 0x0C00 0x0C7F c)%N.


(** Two sentiments of opposite polarity. *)
Definition opposite (a b : str) : Prop :=
  (a = lit "POSITIVE" /\ b = lit "NEGATIVE") \/ (a = lit "NEGATIVE" /\ b = lit "POSITIVE").



(** A word that starts with a character other than a space. *)
Definition starts_visibly (w : str) : bool :=
  match w with [] => false | c :: _ => negb (isspace c) end.

(* ================================================================= *)
(** ** Concrete inputs used to exercise the statements *)

Module Examples.

(** The output of the default model for one input. *)
Definition model_output : list raw_result :=
  [RawResult (lit "LABEL_0") (1 # 10);
   RawResult (lit "LABEL_1") (2 # 10);
   RawResult (lit "LABEL_2") (7 # 10)].

(** An analyzer whose pipeline answers every text with [model_output]. *)
Definition steady_analyzer : SentimentAnalyzer :=
  {| model_name := lit "cardiffnlp/twitter-xlm-roberta-base-sentiment";
     classifier := fun _ => Ok [Inner model_output] |}.


(** A detector that answers every text with Hindi first, English second. *)
Definition steady_detect_langs (text : str) : result (list Language) :=
  Ok [{| lang := lit "hi"; prob := 9 # 10 |}; {| lang := lit "en"; prob := 1 # 10 |}].




Definition upload (file_name : str) (df : DataFrame) : UploadedFile :=
  {| name := file_name; parsed := Ok df |}.

(** A model output in which NEGATIVE and POSITIVE tie, NEGATIVE first. *)
Definition tied_output : list raw_result :=
  [RawResult (lit "negative") (4 # 10);
   RawResult (lit "positive") (4 # 10);
   RawResult (lit "neutral") (2 # 10)].

Definition tied_analyzer : SentimentAnalyzer :=
  {| model_name := lit "cardiffnlp/twitter-xlm-roberta-base-sentiment";
     classifier := fun _ => Ok [Inner tied_output] |}.

(** A loader that only has the fallback model at hand. *)
Definition offline_pipeline (name : str) : result (str -> result (list clf_item)) :=
  if eqb name SentimentAnalyzerMore.fallback_model_name
  then Ok (classifier steady_analyzer)
  else Raise (Exn OtherException (lit "model not found")).

End Examples.

(* ================================================================= *)
(** ** Strings: equality, case mapping, containment *)

Section StringFacts.

Lemma eqb_eq (a b : str) : eqb a b = true <-> a = b.
Proof.
  revert b; induction a as [|x a IH]; intros [|y b]; simpl; split; intro H;
    try discriminate; try reflexivity.
  - apply andb_true_iff in H as [Hx Hab].
    apply N.eqb_eq in Hx. apply IH in Hab. now subst.
  - injection H as -> ->. rewrite N.eqb_refl. now apply IH.
Qed.

Lemma eqb_refl (a : str) : eqb a a = true.
Proof. now apply eqb_eq. Qed.

Lemma eqb_neq (a b : str) : eqb a b = false <-> a <> b.
Proof.
  split; intro H.
  - intro E. apply eqb_eq in E. congruence.
  - destruct (eqb a b) eqn:E; [apply eqb_eq in E; contradiction | reflexivity].
Qed.

Lemma eqb_sym (a b : str) : eqb a b = eqb b a.
Proof.
  destruct (eqb a b) eqn:E.
  - apply eqb_eq in E. subst. symmetry. apply eqb_refl.
  - symmetry. apply eqb_neq. apply eqb_neq in E. congruence.
Qed.

Lemma mem_In (x : str) (l : list str) : mem x l = true <-> In x l.
Proof.
  unfold mem. rewrite existsb_exists. split.
  - intros [y [Hy E]]. apply eqb_eq in E. now subst.
  - intro H. exists x. split; [assumption | apply eqb_refl].
Qed.

Lemma startswith_spec (p s : str) :
  startswith p s = true <-> exists rest, s = p ++ rest.
Proof.
  revert s; induction p as [|x p IH]; intros s; simpl.
  - split; [intros _; now exists s | reflexivity].
  - destruct s as [|y s].
    + split; [discriminate | intros [r Hr]; discriminate].
    + rewrite andb_true_iff, N.eqb_eq, IH. split.
      * intros [-> [r ->]]. now exists r.
      * intros [r Hr]. injection Hr as -> ->. split; [reflexivity | now exists r].
Qed.

(** The containment test decides the documented notion of substring. *)
Lemma contains_spec (needle hay : str) :
  contains needle hay = true <-> substring needle hay.
Proof.
  unfold substring. induction hay as [|c hay IH].
  - simpl. rewrite orb_false_r, startswith_spec. split.
    + intros [r Hr]. exists [], r. exact Hr.
    + intros [[|b before] [after H]].
      * now exists after.
      * discriminate.
  - simpl. rewrite orb_true_iff, startswith_spec, IH. split.
    + intros [[r Hr] | [before [after H]]].
      * exists [], r. exact Hr.
      * exists (c :: before), after. simpl. now rewrite H.
    + intros [[|b before] [after H]].
      * left. now exists after.
      * right. injection H as _ H. now exists before, after.
Qed.

Lemma substring_trans (a b c : str) :
  substring a b -> substring b c -> substring a c.
Proof.
  intros [p1 [q1 ->]] [p2 [q2 ->]].
  exists (p2 ++ p1), (q1 ++ q2). now rewrite <- !app_assoc.
Qed.


Lemma lower_upper_cp (c : codepoint) : lower_cp (upper_cp c) = lower_cp c.
Proof.
  unfold lower_cp, upper_cp, is_ascii_upper, is_ascii_lower.
  destruct (97 <=? c)%N eqn:A, (c <=? 122)%N eqn:B; simpl;
  destruct (65 <=? c)%N eqn:C, (c <=? 90)%N eqn:D; simpl;
  repeat match goal with
         | H : (_ <=? _)%N = true |- _ => apply N.leb_le in H
         | H : (_ <=? _)%N = false |- _ => apply N.leb_gt in H
         end; try lia;
  try (replace ((65 <=? c - 32)%N) with true by (symmetry; apply N.leb_le; lia);
       replace ((c - 32 <=? 90)%N) with true by (symmetry; apply N.leb_le; lia);
       simpl; lia);
  reflexivity.
Qed.

Lemma upper_lower_cp (c : codepoint) : upper_cp (lower_cp c) = upper_cp c.
Proof.
  unfold lower_cp, upper_cp, is_ascii_upper, is_ascii_lower.
  destruct (65 <=? c)%N eqn:C, (c <=? 90)%N eqn:D; simpl;
  destruct (97 <=? c)%N eqn:A, (c <=? 122)%N eqn:B; simpl;
  repeat match goal with
         | H : (_ <=? _)%N = true |- _ => apply N.leb_le in H
         | H : (_ <=? _)%N = false |- _ => apply N.leb_gt in H
         end; try lia;
  try (replace ((97 <=? c + 32)%N) with true by (symmetry; apply N.leb_le; lia);
       replace ((c + 32 <=? 122)%N) with true by (symmetry; apply N.leb_le; lia);
       simpl; lia);
  try rewrite A; try rewrite B; simpl; try reflexivity.
Qed.

Lemma lower_upper (s : str) : lower (upper s) = lower s.
Proof.
  unfold lower, upper. rewrite map_map. apply map_ext, lower_upper_cp.
Qed.

Lemma upper_lower (s : str) : upper (lower s) = upper s.
Proof.
  unfold lower, upper. rewrite map_map. apply map_ext, upper_lower_cp.
Qed.

End StringFacts.

(* ================================================================= *)
(** ** The normalizer's routing refines the documented policy *)

Section Routing.







Lemma step_bucket_canonical (raw : str) : In (step_bucket raw) canonical.
Proof.
  unfold step_bucket, canonical.
  repeat match goal with
         | |- context [if ?b then _ else _] => destruct b
         end; simpl; auto.
Qed.

Lemma normalize_step_accumulates (d : dict Q) (r : raw_result) :
  normalize_step d r = accumulate (step_bucket (label r)) (score r) d.
Proof.
  unfold normalize_step, step_bucket.
  repeat match goal with
         | |- context [if ?b then _ else _] => destruct b
         end; reflexivity.
Qed.

End Routing.

(* ================================================================= *)
(** ** Insertion-ordered dictionaries *)

Section DictFacts.

Context {V : Type}.

Lemma lookup_set (k k' : str) (v : V) (d : dict V) :
  dict_lookup k' (dict_set k v d) =
  if eqb k' k then Some v else dict_lookup k' d.
Proof.
  induction d as [|[k0 v0] d IH]; simpl.
  - reflexivity.
  - destruct (eqb k k0) eqn:E; simpl.
    + apply eqb_eq in E. subst k0.
      destruct (eqb k' k); reflexivity.
    + destruct (eqb k' k0) eqn:E'.
      * apply eqb_eq in E'. subst k0.
        rewrite eqb_sym, E. reflexivity.
      * exact IH.
Qed.

Lemma has_iff_In_keys (k : str) (d : dict V) :
  dict_has k d = true <-> In k (dict_keys d).
Proof.
  unfold dict_has. induction d as [|[k0 v0] d IH]; simpl.
  - split; [discriminate | contradiction].
  - destruct (eqb k k0) eqn:E.
    + apply eqb_eq in E. subst. split; auto.
    + apply eqb_neq in E. rewrite IH. split; [auto | intros [H | H]; congruence].
Qed.

Lemma keys_set (k : str) (v : V) (d : dict V) :
  dict_keys (dict_set k v d) =
  if dict_has k d then dict_keys d else dict_keys d ++ [k].
Proof.
  unfold dict_has. induction d as [|[k0 v0] d IH]; simpl.
  - reflexivity.
  - destruct (eqb k k0) eqn:E; simpl.
    + reflexivity.
    + rewrite IH. destruct (dict_lookup k d); reflexivity.
Qed.

Lemma keys_within_set (universe : list str) (k : str) (v : V) (d : dict V) :
  In k universe -> keys_within universe d -> keys_within universe (dict_set k v d).
Proof.
  intros Hk [Hnd Hin]. unfold keys_within. rewrite keys_set.
  destruct (dict_has k d) eqn:E; [now split|].
  split.
  - apply NoDup_app; [assumption | repeat constructor; simpl; tauto |].
    intros x Hx [<- | []]. apply has_iff_In_keys in Hx. congruence.
  - intros x Hx. apply in_app_or in Hx as [Hx | [<- | []]]; auto.
Qed.



End DictFacts.

(* ================================================================= *)
(** ** The label normalizer *)

Section Normalizer.

Local Open Scope Q_scope.

Lemma get_accumulate (k k' : str) (s : Q) (d : dict Q) :
  dict_get k' (accumulate k s d) 0 =
  if eqb k' k then dict_get k d 0 + s else dict_get k' d 0.
Proof.
  unfold accumulate, dict_get at 1. rewrite lookup_set.
  destruct (eqb k' k); reflexivity.
Qed.


Lemma routed_cons (route : str -> str) (k : str) (r : raw_result)
  (rs : list raw_result) :
  total (routed route k (r :: rs)) ==
  (if eqb (route (label r)) k then score r else 0) + total (routed route k rs).
Proof.
  unfold routed. simpl. destruct (eqb (route (label r)) k); simpl; ring.
Qed.

(** After the first loop every bucket holds what it held before plus the
    scores routed to it. *)
Lemma fold_get (rs : list raw_result) (d : dict Q) (k : str) :
  dict_get k (fold_left normalize_step rs d) 0 ==
  dict_get k d 0 + total (routed step_bucket k rs).
Proof.
  revert d. induction rs as [|r rs IH]; intro d.
  - simpl. ring.
  - simpl fold_left. rewrite IH, routed_cons, normalize_step_accumulates, get_accumulate.
    rewrite (eqb_sym k). destruct (eqb (step_bucket (label r)) k) eqn:E.
    + apply eqb_eq in E. rewrite E. ring.
    + ring.
Qed.


Lemma fold_keys (rs : list raw_result) (d : dict Q) :
  keys_within canonical d ->
  keys_within canonical (fold_left normalize_step rs d).
Proof.
  revert d. induction rs as [|r rs IH]; intros d H; [exact H|].
  simpl. apply IH. rewrite normalize_step_accumulates.
  apply keys_within_set; [apply step_bucket_canonical | exact H].
Qed.

Lemma ensure_key_get (d : dict Q) (k k' : str) :
  dict_get k' (ensure_key d k) 0 = dict_get k' d 0.
Proof.
  unfold ensure_key, dict_has.
  destruct (dict_lookup k d) eqn:E; simpl; [reflexivity|].
  unfold dict_get. rewrite lookup_set.
  destruct (eqb k' k) eqn:E'; [|reflexivity].
  apply eqb_eq in E'. subst. now rewrite E.
Qed.

Lemma ensure_key_has (d : dict Q) (k k' : str) :
  dict_has k' (ensure_key d k) = dict_has k' d || eqb k' k.
Proof.
  unfold ensure_key. destruct (dict_has k d) eqn:E; simpl.
  - destruct (eqb k' k) eqn:E'; [|now rewrite orb_false_r].
    apply eqb_eq in E'. subst. now rewrite E.
  - unfold dict_has at 1. rewrite lookup_set.
    destruct (eqb k' k) eqn:E'; [now rewrite orb_true_r|].
    now rewrite orb_false_r.
Qed.

Lemma ensure_key_keys (d : dict Q) (k : str) :
  In k canonical -> keys_within canonical d -> keys_within canonical (ensure_key d k).
Proof.
  intros Hk H. unfold ensure_key.
  destruct (dict_has k d); simpl; [exact H | now apply keys_within_set].
Qed.

Lemma lookup_of_has (d : dict Q) (k : str) :
  dict_has k d = true -> dict_lookup k d = Some (dict_get k d 0).
Proof.
  unfold dict_has, dict_get. destruct (dict_lookup k d); [reflexivity | discriminate].
Qed.

(** The normalizer's output: exactly the canonical keys, each holding the
    value accumulated by the first loop. *)
Lemma normalize_shape (rs : list raw_result) :
  let acc := fold_left normalize_step rs [] in
  let d := _normalize_sentiment_labels rs in
  keys_within canonical d /\
  forall k, In k canonical -> dict_lookup k d = Some (dict_get k acc 0).
Proof.
  intros acc d. unfold d, _normalize_sentiment_labels. fold acc.
  assert (Hacc : keys_within canonical acc).
  { apply fold_keys. split; [constructor | intros x []]. }
  simpl fold_left. split.
  - repeat apply ensure_key_keys; simpl; auto.
  - intros k Hk. rewrite lookup_of_has.
    + now rewrite !ensure_key_get.
    + rewrite !ensure_key_has.
      destruct Hk as [<- | [<- | [<- | []]]]; rewrite eqb_refl;
        rewrite ?orb_true_r; reflexivity.
Qed.

Lemma normalize_lookup (rs : list raw_result) (k : str) :
  In k canonical ->
  exists v, dict_lookup k (_normalize_sentiment_labels rs) = Some v /\
            v == total (routed step_bucket k rs).
Proof.
  intro Hk. destruct (normalize_shape rs) as [_ H].
  eexists. split; [apply H, Hk|].
  rewrite fold_get. unfold dict_get. simpl. ring.
Qed.




End Normalizer.

(* ================================================================= *)
(** ** Claims about the normalizer *)

Section NormalizerClaims.

Local Open Scope Q_scope.




End NormalizerClaims.



(* ================================================================= *)
(** ** Claims about [analyze_sentiment] *)

Section AnalyzerClaims.

Local Open Scope Q_scope.





End AnalyzerClaims.


(* ================================================================= *)
(** ** Whitespace and blank texts *)

Section Whitespace.

Lemma lstrip_shape (s : str) :
  lstrip s = [] \/ exists c t, lstrip s = c :: t /\ isspace c = false.
Proof.
  induction s as [|c s IH]; simpl; [now left|].
  destruct (isspace c) eqn:E; [exact IH|].
  right. now exists c, s.
Qed.

Lemma lstrip_nil_iff (s : str) : lstrip s = [] <-> whitespace_only s.
Proof.
  unfold whitespace_only. induction s as [|c s IH]; simpl.
  - split; [constructor | reflexivity].
  - destruct (isspace c) eqn:E.
    + rewrite IH. split; [now constructor | now inversion 1].
    + split; [discriminate | inversion 1; congruence].
Qed.

Lemma strip_nil_iff (s : str) : strip s = [] <-> whitespace_only s.
Proof.
  unfold strip, rstrip. split.
  - intro H. apply lstrip_nil_iff.
    destruct (lstrip_shape s) as [E | [c [t [E Hc]]]]; [exact E|].
    exfalso. rewrite E in H.
    destruct (lstrip (rev (c :: t))) as [|x l] eqn:El.
    2:{ apply (f_equal (@List.length codepoint)) in H.
        rewrite length_rev in H. discriminate. }
    apply lstrip_nil_iff in El.
    apply Forall_rev in El. rewrite rev_involutive in El.
    inversion El; congruence.
  - intro H. apply lstrip_nil_iff in H. rewrite H. reflexivity.
Qed.

(** The guard of the analyzers accepts exactly the whitespace-only texts. *)
Lemma is_blank_iff (text : str) : is_blank text = true <-> whitespace_only text.
Proof.
  unfold is_blank. rewrite orb_true_iff. split.
  - intros [H | H].
    + destruct text; [constructor | discriminate].
    + apply strip_nil_iff. destruct (strip text); [reflexivity | discriminate].
  - intro H. right. apply strip_nil_iff in H. now rewrite H.
Qed.

Lemma space_not_upper (c : codepoint) : isspace c = true -> is_ascii_upper c = false.
Proof.
  intro H. destruct (is_ascii_upper c) eqn:U; [exfalso | reflexivity].
  unfold isspace, in_range, is_ascii_upper in *.
  rewrite ?orb_true_iff, ?andb_true_iff, ?N.leb_le, ?N.eqb_eq in *.
  lia.
Qed.

Lemma lower_whitespace (text : str) : whitespace_only text -> lower text = text.
Proof.
  unfold whitespace_only, lower. induction 1 as [|c text Hc _ IH]; simpl; [reflexivity|].
  rewrite IH. unfold lower_cp. now rewrite (space_not_upper c Hc).
Qed.

Lemma startswith_head (c : codepoint) (w t : str) :
  startswith (c :: w) t = true -> In c t.
Proof.
  destruct t as [|y t]; simpl; [discriminate|].
  intro H. apply andb_true_iff in H as [H _]. apply N.eqb_eq in H. now left.
Qed.

Lemma contains_head (c : codepoint) (w t : str) :
  contains (c :: w) t = true -> In c t.
Proof.
  induction t as [|y t IH].
  - simpl. discriminate.
  - intro H. change (startswith (c :: w) (y :: t) || contains (c :: w) t = true) in H.
    apply orb_true_iff in H as [H | H].
    + now apply startswith_head in H.
    + right. now apply IH.
Qed.

Lemma no_keyword_in_whitespace (words : list str) (text : str) :
  forallb starts_visibly words = true ->
  whitespace_only text ->
  count_words words text = 0%Z.
Proof.
  intros Hw Ht. unfold count_words.
  replace (filter (fun word => contains word text) words) with (@nil str); [reflexivity|].
  symmetry. induction words as [|w words IH]; [reflexivity|].
  simpl in Hw. apply andb_true_iff in Hw as [Hw Hws]. simpl.
  destruct (contains w text) eqn:E; [exfalso | now apply IH].
  destruct w as [|c w]; [discriminate|]. simpl in Hw.
  apply contains_head in E. unfold whitespace_only in Ht.
  rewrite Forall_forall in Ht. rewrite (Ht c E) in Hw. discriminate.
Qed.

End Whitespace.

(* ================================================================= *)
(** ** Claims about the rule-based fallback classifiers *)

Section FallbackClaims.

Lemma count_words_cons (w : str) (ws : list str) (text : str) :
  count_words (w :: ws) text =
  if contains w text then (count_words ws text + 1)%Z else count_words ws text.
Proof.
  unfold count_words. simpl. destruct (contains w text); [|reflexivity].
  simpl List.length. lia.
Qed.

(** The counting loop counts the keywords that occur in the text. *)
Lemma count_words_hits (words : list str) (text : str) :
  keyword_hits text words (count_words words text).
Proof.
  induction words as [|w ws IH].
  - constructor.
  - rewrite count_words_cons. destruct (contains w text) eqn:E.
    + apply hits_in; [now apply contains_spec | exact IH].
    + apply hits_out; [|exact IH].
      intro H. apply contains_spec in H. congruence.
Qed.

Lemma nonempty_not_is_empty (text : str) : text <> [] -> is_empty text = false.
Proof. destruct text; [contradiction | reflexivity]. Qed.

(** C4: on a non-empty text the fallback classifier lowercases the text,
    counts the positive and the negative keywords that occur in it as
    substrings, and answers POSITIVE with confidence min(90, 60 + 10 (p - n))
    when p > n, NEGATIVE with the symmetric confidence when n > p, and
    NEUTRAL with confidence 50 otherwise; "This is good and great" gives
    POSITIVE 80 and "bad and terrible" gives NEGATIVE 80. *)
Theorem fallback_sentiment_by_keyword_counts :
  (forall text, text <> [] ->
     let p := count_words positive_words (lower text) in
     let n := count_words negative_words (lower text) in
     keyword_hits (lower text) positive_words p /\
     keyword_hits (lower text) negative_words n /\
     exists sentiment confidence,
       simple_sentiment_analysis text =
         [(lit "sentiment", VStr sentiment);
          (lit "confidence", VInt confidence);
          (lit "positive_score", VInt p);
          (lit "negative_score", VInt n)] /\
       ((p > n /\ sentiment = lit "POSITIVE" /\
         confidence = Z.min 90 (60 + 10 * (p - n)))
        \/ (n > p /\ sentiment = lit "NEGATIVE" /\
            confidence = Z.min 90 (60 + 10 * (n - p)))
        \/ (p = n /\ sentiment = lit "NEUTRAL" /\ confidence = 50))%Z) /\
  simple_sentiment_analysis (lit "This is good and great") =
    [(lit "sentiment", VStr (lit "POSITIVE")); (lit "confidence", VInt 80);
     (lit "positive_score", VInt 2); (lit "negative_score", VInt 0)] /\
  simple_sentiment_analysis (lit "bad and terrible") =
    [(lit "sentiment", VStr (lit "NEGATIVE")); (lit "confidence", VInt 80);
     (lit "positive_score", VInt 0); (lit "negative_score", VInt 2)].
Proof.
  split; [|split; vm_compute; reflexivity].
  intros text Hne p n.
  split; [apply count_words_hits|]. split; [apply count_words_hits|].
  unfold simple_sentiment_analysis. rewrite (nonempty_not_is_empty text Hne).
  fold p n. clearbody p n.
  destruct (p >? n)%Z eqn:Epn.
  - exists (lit "POSITIVE"), (Z.min 90 (60 + (p - n) * 10))%Z.
    split; [reflexivity|]. left. repeat split; lia.
  - destruct (n >? p)%Z eqn:Enp.
    + exists (lit "NEGATIVE"), (Z.min 90 (60 + (n - p) * 10))%Z.
      split; [reflexivity|]. right; left. repeat split; lia.
    + exists (lit "NEUTRAL"), 50%Z.
      split; [reflexivity|]. right; right. repeat split; lia.
Qed.

(** C10: the result of the fallback classifier has the four keys sentiment,
    confidence, positive_score and negative_score on a non-empty text and
    only sentiment and confidence on the empty text, so that reading
    positive_score or negative_score of the empty-text result raises, as it
    does in the batch loop. *)
Theorem fallback_result_shape :
  (forall text, text <> [] ->
     dict_keys (simple_sentiment_analysis text) =
       [lit "sentiment"; lit "confidence"; lit "positive_score"; lit "negative_score"]) /\
  dict_keys (simple_sentiment_analysis []) = [lit "sentiment"; lit "confidence"] /\
  getitem (simple_sentiment_analysis []) (lit "positive_score")
    = Raise (Exn KeyError (lit "positive_score")) /\
  getitem (simple_sentiment_analysis []) (lit "negative_score")
    = Raise (Exn KeyError (lit "negative_score")) /\
  SimpleBatch.result_row [] (detect_language_simple []) (simple_sentiment_analysis [])
    = Raise (Exn KeyError (lit "positive_score")).
Proof.
  split; [|repeat split; vm_compute; reflexivity].
  intros text Hne. unfold simple_sentiment_analysis.
  rewrite (nonempty_not_is_empty text Hne).
  set (p := count_words positive_words (lower text)).
  set (n := count_words negative_words (lower text)).
  destruct (p >? n)%Z; [reflexivity|].
  destruct (n >? p)%Z; reflexivity.
Qed.

Lemma count_chars_nonneg (p : codepoint -> bool) (text : str) :
  (0 <= count_chars p text)%Z.
Proof. unfold count_chars. lia. Qed.


End FallbackClaims.

Lemma fallback_sentiment_by_keyword_counts_witness :
  exists sentiment confidence,
    simple_sentiment_analysis (lit "I love it, not bad") =
      [(lit "sentiment", VStr sentiment);
       (lit "confidence", VInt confidence);
       (lit "positive_score",
         VInt (count_words positive_words (lower (lit "I love it, not bad"))));
       (lit "negative_score",
         VInt (count_words negative_words (lower (lit "I love it, not bad"))))].
Proof.
  destruct (proj1 fallback_sentiment_by_keyword_counts (lit "I love it, not bad"))
    as [_ [_ [s [c [E _]]]]].
  - discriminate.
  - exists s, c. exact E.
Defined.

Lemma fallback_result_shape_witness :
  dict_keys (simple_sentiment_analysis (lit "fine")) =
    [lit "sentiment"; lit "confidence"; lit "positive_score"; lit "negative_score"].
Proof.
  apply (proj1 fallback_result_shape (lit "fine")). discriminate.
Defined.


(* ================================================================= *)
(** ** Blank texts *)

Section BlankClaims.

(** A whitespace-only text on which the fallback classifier does not answer
    with confidence 0: the stated behaviour of C5 fails for it. *)
Lemma fallback_blank_confidence_is_50 :
  is_blank (lit "  ") = true /\
  simple_sentiment_analysis (lit "  ") =
    [(lit "sentiment", VStr (lit "NEUTRAL")); (lit "confidence", VInt 50);
     (lit "positive_score", VInt 0); (lit "negative_score", VInt 0)].
Proof. split; vm_compute; reflexivity. Qed.

(** C5, amended: on every empty or whitespace-only text [analyze_sentiment]
    returns NEUTRAL with confidence 0, the neutral-only scores and the error
    "Empty text provided"; the fallback classifier returns NEUTRAL with
    confidence 0 on the empty text, and NEUTRAL with confidence 50 and both
    keyword counts 0 on a non-empty whitespace-only text. *)
Theorem blank_text_results :
  (forall self text, whitespace_only text ->
     analyze_sentiment self text =
       Ok (sentiment_dict NEUTRAL 0%Q neutral_only (VStr (lit "Empty text provided")))) /\
  simple_sentiment_analysis [] =
    [(lit "sentiment", VStr (lit "NEUTRAL")); (lit "confidence", VFloat 0%Q)] /\
  (forall text, text <> [] -> whitespace_only text ->
     simple_sentiment_analysis text =
       [(lit "sentiment", VStr (lit "NEUTRAL")); (lit "confidence", VInt 50);
        (lit "positive_score", VInt 0); (lit "negative_score", VInt 0)]).
Proof.
  split; [|split].
  - intros self text H. apply is_blank_iff in H.
    unfold analyze_sentiment. now rewrite H.
  - reflexivity.
  - intros text Hne Hws. unfold simple_sentiment_analysis.
    rewrite (nonempty_not_is_empty text Hne).
    rewrite (lower_whitespace text Hws).
    rewrite !no_keyword_in_whitespace by (assumption || (vm_compute; reflexivity)).
    reflexivity.
Qed.

End BlankClaims.

Lemma blank_text_results_witness :
  analyze_sentiment Examples.steady_analyzer [32; 9; 10]%N =
    Ok (sentiment_dict NEUTRAL 0%Q neutral_only (VStr (lit "Empty text provided"))).
Proof.
  apply (proj1 blank_text_results Examples.steady_analyzer [32; 9; 10]%N).
  repeat constructor.
Defined.

(* ================================================================= *)
(** ** Failures are returned, not raised *)

Section FailureClaims.

Variable detect_langs : str -> result (list Language).

Lemma prefixed_nonempty (prefix rest : str) : prefix <> [] -> prefix ++ rest <> [].
Proof. destruct prefix; [contradiction | discriminate]. Qed.

Ltac nonempty_message :=
  first [discriminate | apply prefixed_nonempty; discriminate].

(** Every call of [analyze_sentiment] returns a dictionary: a success with
    no error, or the degraded result with a message. *)
Lemma analyze_sentiment_returns (self : SentimentAnalyzer) (text : str) :
  exists d, analyze_sentiment self text = Ok d /\
    (getitem d (lit "error") = Ok VNone \/
     exists message, message <> [] /\ d = degraded_sentiment message).
Proof.
  unfold analyze_sentiment. destruct (is_blank text).
  - eexists. split; [reflexivity|]. right. eexists. split; [|reflexivity]. discriminate.
  - destruct (classifier self (prepare_text text)) as [output | e]; simpl.
    2:{ eexists. split; [reflexivity|]. right. eexists. split; [|reflexivity].
        nonempty_message. }
    destruct (unwrap_results output) as [entries | e]; simpl.
    2:{ eexists. split; [reflexivity|]. right. eexists. split; [|reflexivity].
        nonempty_message. }
    destruct (py_max (_normalize_sentiment_labels entries)) as [m | e]; simpl.
    + eexists. split; [reflexivity|]. left. reflexivity.
    + eexists. split; [reflexivity|]. right. eexists. split; [|reflexivity].
      nonempty_message.
Qed.



(** C9: on a successful detection [is_supported] is true exactly when the
    detected code is en, hi or te; on a blank text, on an empty detection
    and on a failure it is false. *)
Theorem is_supported_iff_supported_code (text : str) :
  (forall top rest,
     is_blank text = false -> detect_langs (strip text) = Ok (top :: rest) ->
     exists d b,
       detect_language detect_langs init text = Ok d /\
       getitem d (lit "language_code") = Ok (VStr (lang top)) /\
       getitem d (lit "is_supported") = Ok (VBool b) /\
       (b = true <-> In (lang top) [lit "en"; lit "hi"; lit "te"])) /\
  (is_blank text = true \/ detect_langs (strip text) = Ok []
   \/ (exists e, detect_langs (strip text) = Raise e) ->
   exists d,
     detect_language detect_langs init text = Ok d /\
     getitem d (lit "is_supported") = Ok (VBool false)).
Proof.
  split.
  - intros top rest Hb Hd. unfold detect_language. rewrite Hb, Hd. simpl.
    eexists. eexists. split; [reflexivity|]. split; [reflexivity|].
    split; [reflexivity|].
    rewrite has_iff_In_keys. simpl. tauto.
  - unfold detect_language. destruct (is_blank text) eqn:Hb.
    + intros _. eexists. split; reflexivity.
    + intros [H | [H | [e H]]]; [discriminate | |]; rewrite H; simpl.
      * eexists. split; reflexivity.
      * destruct (exn_cls e); eexists; split; reflexivity.
Qed.

End FailureClaims.


Lemma is_supported_iff_supported_code_witness :
  exists d b,
    detect_language Examples.steady_detect_langs init (lit "namaste") = Ok d /\
    getitem d (lit "language_code") = Ok (VStr (lit "hi")) /\
    getitem d (lit "is_supported") = Ok (VBool b) /\
    (b = true <-> In (lit "hi") [lit "en"; lit "hi"; lit "te"]).
Proof.
  apply (proj1 (is_supported_iff_supported_code Examples.steady_detect_langs
                  (lit "namaste"))
           {| lang := lit "hi"; prob := 9 # 10 |}
           [{| lang := lit "en"; prob := 1 # 10 |}]);
    reflexivity.
Defined.

(* ================================================================= *)
(** ** The CSV batch entry points *)

Section BatchClaims.

Variable detect_langs : str -> result (list Language).
Variable sentiment_analyzer : SentimentAnalyzer.
Variable language_detector : LanguageDetector.

Lemma is_text_column_spec (col : str) :
  is_text_column col = true <-> substring (lit "text") (lower col).
Proof. apply contains_spec. Qed.

Lemma no_text_column (cols : list str) :
  (forall col, In col cols -> ~ substring (lit "text") (lower col)) ->
  filter is_text_column cols = [].
Proof.
  induction cols as [|c cols IH]; intro H; [reflexivity|].
  simpl. destruct (is_text_column c) eqn:E.
  - exfalso. apply (H c); [now left | now apply is_text_column_spec].
  - apply IH. intros col Hc. apply H. now right.
Qed.

Lemma first_text_column (before after : list str) (col : str) :
  (forall c, In c before -> ~ substring (lit "text") (lower c)) ->
  substring (lit "text") (lower col) ->
  filter is_text_column (before ++ col :: after) = col :: filter is_text_column after.
Proof.
  intros Hb Hc. rewrite filter_app, (no_text_column before Hb). simpl.
  apply is_text_column_spec in Hc. now rewrite Hc.
Qed.


End BatchClaims.


(* ================================================================= *)
(** ** Further properties of the transformer-backed analyzer *)

Section AnalyzerMore.

Local Open Scope Q_scope.





End AnalyzerMore.


(** On the tied output the bucket met first, NEGATIVE, is reported. *)
Example tied_output_is_negative :
  bind (analyze_sentiment Examples.tied_analyzer (lit "ok"))
       (fun d => getitem d (lit "sentiment"))
  = Ok (VStr NEGATIVE).
Proof. vm_compute. reflexivity. Qed.

Section AnalyzerInputs.

Lemma firstn_prefix {A} (n : nat) (l : list A) : exists rest, l = firstn n l ++ rest.
Proof. exists (skipn n l). symmetry. apply firstn_skipn. Qed.

(** The text handed to the pipeline: not empty, at most 512 characters, a
    prefix of the stripped text. *)
Lemma prepare_text_shape (text : str) :
  is_blank text = false ->
  prepare_text text <> [] /\
  (List.length (prepare_text text) <= 512)%nat /\
  exists rest, strip text = prepare_text text ++ rest.
Proof.
  intro Hb. unfold is_blank in Hb. apply orb_false_iff in Hb as [_ Hs].
  unfold prepare_text, slice_to.
  destruct (512 <? List.length (strip text))%nat eqn:E.
  - apply Nat.ltb_lt in E. split; [|split].
    + destruct (strip text); [simpl in E; lia | discriminate].
    + rewrite length_firstn. lia.
    + apply firstn_prefix.
  - apply Nat.ltb_ge in E. split; [|split].
    + destruct (strip text); [discriminate | discriminate].
    + exact E.
    + exists []. now rewrite app_nil_r.
Qed.

(** X2: The pipeline is only ever asked about a non-empty text of at most 512
    characters: two analyzers whose pipelines agree on such texts give the
    same result on every text. *)
Theorem analyze_sentiment_calls_pipeline_on_short_text
  (self other : SentimentAnalyzer) (text : str) :
  (forall t, t <> [] -> (List.length t <= 512)%nat ->
             classifier self t = classifier other t) ->
  analyze_sentiment self text = analyze_sentiment other text.
Proof.
  intro Hagree. unfold analyze_sentiment.
  destruct (is_blank text) eqn:Hb; [reflexivity|].
  destruct (prepare_text_shape text Hb) as [Hne [Hlen _]].
  now rewrite (Hagree (prepare_text text) Hne Hlen).
Qed.

Lemma lstrip_app_whitespace (ws t : str) :
  whitespace_only ws -> lstrip (ws ++ t) = lstrip t.
Proof.
  induction 1 as [|c ws Hc _ IH]; simpl; [reflexivity|]. now rewrite Hc.
Qed.

Lemma lstrip_app_right (t ws : str) :
  lstrip t <> [] -> lstrip (t ++ ws) = lstrip t ++ ws.
Proof.
  induction t as [|c t IH]; simpl; [contradiction|].
  destruct (isspace c); [exact IH | reflexivity].
Qed.

Lemma whitespace_only_app (a b : str) :
  whitespace_only (a ++ b) <-> whitespace_only a /\ whitespace_only b.
Proof. unfold whitespace_only. apply Forall_app. Qed.

Lemma whitespace_only_rev (a : str) : whitespace_only a -> whitespace_only (rev a).
Proof. unfold whitespace_only. apply Forall_rev. Qed.

Lemma rstrip_app_whitespace (t ws : str) :
  whitespace_only ws -> rstrip (t ++ ws) = rstrip t.
Proof.
  intro H. unfold rstrip. rewrite rev_app_distr.
  now rewrite lstrip_app_whitespace by now apply whitespace_only_rev.
Qed.

(** Whitespace around a text does not change what [strip] returns. *)
Lemma strip_surrounded (ws1 t ws2 : str) :
  whitespace_only ws1 -> whitespace_only ws2 ->
  strip (ws1 ++ t ++ ws2) = strip t.
Proof.
  intros H1 H2. unfold strip. rewrite lstrip_app_whitespace by assumption.
  destruct (lstrip t) as [|c t'] eqn:E.
  - apply lstrip_nil_iff in E.
    assert (Hall : whitespace_only (t ++ ws2)) by (apply whitespace_only_app; now split).
    apply lstrip_nil_iff in Hall. now rewrite Hall.
  - rewrite lstrip_app_right by (rewrite E; discriminate).
    rewrite E. now apply rstrip_app_whitespace.
Qed.

Lemma is_blank_surrounded (ws1 t ws2 : str) :
  whitespace_only ws1 -> whitespace_only ws2 ->
  is_blank (ws1 ++ t ++ ws2) = is_blank t.
Proof.
  intros H1 H2.
  destruct (is_blank t) eqn:E.
  - apply is_blank_iff. apply is_blank_iff in E.
    apply whitespace_only_app. split; [assumption|].
    apply whitespace_only_app. now split.
  - destruct (is_blank (ws1 ++ t ++ ws2)) eqn:E'; [|reflexivity].
    apply is_blank_iff in E'. apply whitespace_only_app in E' as [_ E'].
    apply whitespace_only_app in E' as [E' _].
    apply is_blank_iff in E'. congruence.
Qed.

Variable detect_langs : str -> result (list Language).

(** X4: Leading and trailing whitespace never changes the result of
    [analyze_sentiment] nor of [detect_language]. *)
Theorem surrounding_whitespace_is_ignored (ws1 text ws2 : str) :
  whitespace_only ws1 -> whitespace_only ws2 ->
  (forall self,
     analyze_sentiment self (ws1 ++ text ++ ws2) = analyze_sentiment self text) /\
  (forall self,
     detect_language detect_langs self (ws1 ++ text ++ ws2)
     = detect_language detect_langs self text).
Proof.
  intros H1 H2. split; intro self.
  - unfold analyze_sentiment, prepare_text.
    now rewrite is_blank_surrounded, strip_surrounded.
  - unfold detect_language.
    now rewrite is_blank_surrounded, strip_surrounded.
Qed.

End AnalyzerInputs.

Lemma analyze_sentiment_calls_pipeline_on_short_text_witness :
  analyze_sentiment Examples.steady_analyzer (lit "fine")
  = analyze_sentiment
      {| model_name := lit "other";
         classifier := fun t => if (512 <? List.length t)%nat
                                then Raise (Exn ValueError (lit "too long"))
                                else Ok [Inner Examples.model_output] |}
      (lit "fine").
Proof.
  apply analyze_sentiment_calls_pipeline_on_short_text.
  intros t _ Hlen. simpl.
  destruct (512 <? List.length t)%nat eqn:E; [|reflexivity].
  apply Nat.ltb_lt in E. lia.
Defined.

Lemma surrounding_whitespace_is_ignored_witness :
  analyze_sentiment Examples.steady_analyzer ([32; 9]%N ++ lit "fine" ++ [10]%N)
  = analyze_sentiment Examples.steady_analyzer (lit "fine").
Proof.
  apply (surrounding_whitespace_is_ignored Examples.steady_detect_langs
           [32; 9]%N (lit "fine") [10]%N); repeat constructor.
Defined.

(* ================================================================= *)
(** ** Further properties of the normalizer *)

Section NormalizerMore.

Local Open Scope Q_scope.

Lemma total_perm (xs ys : list Q) : Permutation xs ys -> total xs == total ys.
Proof.
  induction 1 as [| x xs ys _ IH | x y xs | xs ys zs _ IH1 _ IH2]; simpl.
  - reflexivity.
  - now rewrite IH.
  - ring.
  - now rewrite IH1.
Qed.

Lemma filter_perm {A} (f : A -> bool) (xs ys : list A) :
  Permutation xs ys -> Permutation (filter f xs) (filter f ys).
Proof.
  induction 1 as [| x xs ys _ IH | x y xs | xs ys zs _ IH1 _ IH2]; simpl.
  - constructor.
  - destruct (f x); [now constructor | exact IH].
  - destruct (f x), (f y); try apply Permutation_refl. apply perm_swap.
  - now apply Permutation_trans with (filter f ys).
Qed.

(** X5: The accumulated scores do not depend on the order in which the model
    lists its labels (the order of the keys, and with it the tie-break,
    does). *)
Theorem normalizer_ignores_entry_order (rs rs' : list raw_result) (k : str) :
  Permutation rs rs' ->
  In k canonical ->
  exists v v',
    dict_lookup k (_normalize_sentiment_labels rs) = Some v /\
    dict_lookup k (_normalize_sentiment_labels rs') = Some v' /\
    v == v'.
Proof.
  intros Hp Hk.
  destruct (normalize_lookup rs k Hk) as [v [Hv Ev]].
  destruct (normalize_lookup rs' k Hk) as [v' [Hv' Ev']].
  exists v, v'. repeat split; try assumption.
  rewrite Ev, Ev'. apply total_perm. unfold routed.
  apply Permutation_map, filter_perm, Hp.
Qed.

Lemma step_bucket_case (raw raw' : str) :
  lower raw = lower raw' -> step_bucket raw = step_bucket raw'.
Proof.
  intro H. unfold step_bucket.
  assert (E : upper raw = upper raw').
  { rewrite <- (upper_lower raw), <- (upper_lower raw'). now rewrite H. }
  now rewrite E.
Qed.

Lemma fold_normalize_case (rs rs' : list raw_result) (d : dict Q) :
  Forall2 (fun r r' => lower (label r) = lower (label r') /\ score r = score r') rs rs' ->
  fold_left normalize_step rs d = fold_left normalize_step rs' d.
Proof.
  intro H. revert d. induction H as [|r r' rs rs' [Hl Hs] _ IH]; intro d; [reflexivity|].
  simpl. rewrite IH. f_equal.
  rewrite !normalize_step_accumulates. now rewrite (step_bucket_case _ _ Hl), Hs.
Qed.

(** X6: Raw labels are read without regard to the case of their letters: two
    outputs that differ only in the case of the labels normalize to the
    same dictionary. *)
Theorem normalizer_ignores_label_case (rs rs' : list raw_result) :
  Forall2 (fun r r' => lower (label r) = lower (label r') /\ score r = score r') rs rs' ->
  _normalize_sentiment_labels rs = _normalize_sentiment_labels rs'.
Proof.
  intro H. unfold _normalize_sentiment_labels.
  now rewrite (fold_normalize_case rs rs' [] H).
Qed.




End NormalizerMore.

Section ConfidenceBounds.

Local Open Scope Q_scope.


End ConfidenceBounds.

Lemma normalizer_ignores_entry_order_witness :
  exists v v',
    dict_lookup POSITIVE (_normalize_sentiment_labels Examples.model_output) = Some v /\
    dict_lookup POSITIVE (_normalize_sentiment_labels (rev Examples.model_output))
    = Some v' /\
    (v == v')%Q.
Proof.
  apply (normalizer_ignores_entry_order Examples.model_output
           (rev Examples.model_output) POSITIVE).
  - apply Permutation_rev.
  - simpl; auto.
Defined.

Lemma normalizer_ignores_label_case_witness :
  _normalize_sentiment_labels [RawResult (lit "Label_2") (1 # 2)]
  = _normalize_sentiment_labels [RawResult (lit "label_2") (1 # 2)].
Proof.
  apply normalizer_ignores_label_case.
  repeat constructor.
Defined.


(* ================================================================= *)
(** ** Further properties of the rule-based classifiers *)

Section FallbackMore.

Lemma is_empty_map (f : codepoint -> codepoint) (text : str) :
  is_empty (map f text) = is_empty text.
Proof. destruct text; reflexivity. Qed.

(** X10: The fallback classifier does not look at the case of the letters. *)
Theorem fallback_sentiment_ignores_case (text : str) :
  simple_sentiment_analysis (upper text) = simple_sentiment_analysis text /\
  simple_sentiment_analysis (lower text) = simple_sentiment_analysis text.
Proof.
  unfold simple_sentiment_analysis. split.
  - unfold upper at 1. rewrite is_empty_map. now rewrite lower_upper.
  - unfold lower at 1. rewrite is_empty_map.
    assert (E : lower (lower text) = lower text).
    { rewrite <- (lower_upper text) at 2. rewrite <- (upper_lower text).
      now rewrite lower_upper. }
    now rewrite E.
Qed.

Lemma count_words_range (words : list str) (text : str) :
  (0 <= count_words words text <= Z.of_nat (List.length words))%Z.
Proof.
  unfold count_words. pose proof (filter_length_le (fun w => contains w text) words). lia.
Qed.

(** X11: On a non-empty text the confidence of the fallback classifier is 50,
    70, 80 or 90; it is 50 exactly when the sentiment is NEUTRAL, which is
    exactly when as many positive as negative keywords occur; at most 32
    positive and 29 negative keywords are counted. *)
Theorem fallback_confidence_values (text : str) :
  text <> [] ->
  exists sentiment confidence p n,
    simple_sentiment_analysis text =
      [(lit "sentiment", VStr sentiment); (lit "confidence", VInt confidence);
       (lit "positive_score", VInt p); (lit "negative_score", VInt n)] /\
    (confidence = 50 \/ confidence = 70 \/ confidence = 80 \/ confidence = 90)%Z /\
    (confidence = 50%Z <-> sentiment = lit "NEUTRAL") /\
    (sentiment = lit "NEUTRAL" <-> p = n) /\
    (0 <= p <= 32)%Z /\ (0 <= n <= 29)%Z.
Proof.
  intro Hne. unfold simple_sentiment_analysis.
  rewrite (nonempty_not_is_empty text Hne).
  pose proof (count_words_range positive_words (lower text)) as Hp.
  pose proof (count_words_range negative_words (lower text)) as Hn.
  change (Z.of_nat (List.length positive_words)) with 32%Z in Hp.
  change (Z.of_nat (List.length negative_words)) with 29%Z in Hn.
  set (p := count_words positive_words (lower text)) in *.
  set (n := count_words negative_words (lower text)) in *.
  clearbody p n.
  destruct (p >? n)%Z eqn:Epn; [|destruct (n >? p)%Z eqn:Enp].
  - exists (lit "POSITIVE"), (Z.min 90 (60 + (p - n) * 10))%Z, p, n.
    split; [reflexivity|]. repeat split; try lia; try (intro; exfalso; lia);
      try discriminate.
  - exists (lit "NEGATIVE"), (Z.min 90 (60 + (n - p) * 10))%Z, p, n.
    split; [reflexivity|]. repeat split; try lia; try (intro; exfalso; lia);
      try discriminate.
  - exists (lit "NEUTRAL"), 50%Z, p, n.
    split; [reflexivity|]. repeat split; try lia; try reflexivity.
Qed.

End FallbackMore.

Lemma fallback_confidence_values_witness :
  exists sentiment confidence p n,
    simple_sentiment_analysis (lit "good good good") =
      [(lit "sentiment", VStr sentiment); (lit "confidence", VInt confidence);
       (lit "positive_score", VInt p); (lit "negative_score", VInt n)] /\
    (confidence = 50 \/ confidence = 70 \/ confidence = 80 \/ confidence = 90)%Z /\
    (confidence = 50%Z <-> sentiment = lit "NEUTRAL") /\
    (sentiment = lit "NEUTRAL" <-> p = n) /\
    (0 <= p <= 32)%Z /\ (0 <= n <= 29)%Z.
Proof.
  apply (fallback_confidence_values (lit "good good good")). discriminate.
Defined.

Section LanguageMore.

Local Open Scope Z_scope.

(** The three counts of a text, abstracted: what the detector returns is a
    function of them. *)
Lemma detect_language_simple_by_counts (text : str) :
  let english := count_chars is_ascii_alpha text in
  let hindi := count_chars (in_range 0x0900 0x097F)%N text in
  let telugu := count_chars (in_range 0x0C00 0x0C7F)%N text in
  let total := english + hindi + telugu in
  detect_language_simple text =
    if total =? 0 then language_result (lit "Unknown") 0%Q
    else if (hindi >? english) && (hindi >? telugu) then
      language_result (lit "Hindi") (percentage hindi total)
    else if (telugu >? english) && (telugu >? hindi) then
      language_result (lit "Telugu") (percentage telugu total)
    else language_result (lit "English") (percentage english total).
Proof.
  intros english hindi telugu total. unfold detect_language_simple.
  destruct text as [|c text]; reflexivity.
Qed.


Lemma percentage_bounds (part total : Z) :
  0 <= part <= total -> 0 < total ->
  (0 <= percentage part total)%Q /\ (percentage part total <= 100)%Q.
Proof.
  intros [H0 H1] Hpos. unfold percentage.
  assert (Ht : (0 < inject_Z total)%Q) by (unfold Qlt; simpl; lia).
  assert (Hp : (0 <= inject_Z part)%Q) by (unfold Qle; simpl; lia).
  assert (Hle : (inject_Z part <= inject_Z total)%Q) by (unfold Qle; simpl; lia).
  assert (Hd0 : (0 <= inject_Z part / inject_Z total)%Q).
  { apply Qle_shift_div_l; [exact Ht|]. now rewrite Qmult_0_l. }
  assert (Hd1 : (inject_Z part / inject_Z total <= 1)%Q).
  { apply Qle_shift_div_r; [exact Ht|]. now rewrite Qmult_1_l. }
  split; lra.
Qed.

(** X14: The confidence of the fallback language detector lies between 0 and
    100, and a language answered on a strict plurality has a confidence
    above 100/3. *)
Theorem fallback_language_confidence_bounds (text : str) :
  exists language confidence,
    detect_language_simple text = language_result language confidence /\
    (0 <= confidence)%Q /\ (confidence <= 100)%Q /\
    In language [lit "Unknown"; lit "Hindi"; lit "Telugu"; lit "English"] /\
    (language = lit "Hindi" \/ language = lit "Telugu" -> (100 # 3 < confidence)%Q).
Proof.
  rewrite detect_language_simple_by_counts.
  pose proof (count_chars_nonneg is_ascii_alpha text) as He.
  pose proof (count_chars_nonneg (in_range 0x0900 0x097F)%N text) as Hh.
  pose proof (count_chars_nonneg (in_range 0x0C00 0x0C7F)%N text) as Ht.
  set (english := count_chars is_ascii_alpha text) in *.
  set (hindi := count_chars (in_range 0x0900 0x097F)%N text) in *.
  set (telugu := count_chars (in_range 0x0C00 0x0C7F)%N text) in *.
  clearbody english hindi telugu.
  destruct (english + hindi + telugu =? 0) eqn:E0.
  { exists (lit "Unknown"), 0%Q. split; [reflexivity|].
    repeat split; try discriminate; try (simpl; auto).
    intros [H | H]; discriminate. }
  apply Z.eqb_neq in E0.
  assert (Hpos : 0 < english + hindi + telugu) by lia.
  assert (plurality : forall part,
             0 <= part -> 3 * part > english + hindi + telugu ->
             (100 # 3 < percentage part (english + hindi + telugu))%Q).
  { intros part H0 H3. unfold percentage.
    assert (Hq : (1 # 3 < inject_Z part / inject_Z (english + hindi + telugu))%Q).
    { apply Qlt_shift_div_l; [unfold Qlt; simpl; lia|].
      assert (Hz : (inject_Z (english + hindi + telugu) < inject_Z (3 * part))%Q)
        by (rewrite <- Zlt_Qlt; lia).
      rewrite inject_Z_mult in Hz. change (inject_Z 3) with 3%Q in Hz. lra. }
    lra. }
  destruct ((hindi >? english) && (hindi >? telugu)) eqn:E1.
  { apply andb_true_iff in E1 as [A B].
    exists (lit "Hindi"), (percentage hindi (english + hindi + telugu)).
    split; [reflexivity|].
    destruct (percentage_bounds hindi (english + hindi + telugu)) as [L U];
      [lia | lia |].
    repeat split; try assumption; try (simpl; auto).
    intros _. apply plurality; lia. }
  destruct ((telugu >? english) && (telugu >? hindi)) eqn:E2.
  { apply andb_true_iff in E2 as [A B].
    exists (lit "Telugu"), (percentage telugu (english + hindi + telugu)).
    split; [reflexivity|].
    destruct (percentage_bounds telugu (english + hindi + telugu)) as [L U];
      [lia | lia |].
    repeat split; try assumption; try (simpl; auto).
    intros _. apply plurality; lia. }
  exists (lit "English"), (percentage english (english + hindi + telugu)).
  split; [reflexivity|].
  destruct (percentage_bounds english (english + hindi + telugu)) as [L U];
    [lia | lia |].
  repeat split; try assumption; try (simpl; auto).
  intros [H | H]; discriminate.
Qed.

Lemma count_chars_filter (p q : codepoint -> bool) (text : str) :
  (forall c, p c = true -> q c = true) ->
  count_chars p (filter q text) = count_chars p text.
Proof.
  intro H. unfold count_chars. f_equal. f_equal.
  induction text as [|c text IH]; [reflexivity|].
  simpl. destruct (q c) eqn:Q; simpl.
  - destruct (p c); [now rewrite IH | exact IH].
  - destruct (p c) eqn:P; [|exact IH].
    apply H in P. congruence.
Qed.

(** X15: Characters outside the three script classes (digits, punctuation,
    spaces, other scripts) have no influence on the answer. *)
Theorem fallback_language_ignores_other_characters (text : str) :
  detect_language_simple (filter classified text) = detect_language_simple text.
Proof.
  rewrite !detect_language_simple_by_counts.
  rewrite !count_chars_filter; [reflexivity | | |];
    intros c H; unfold classified; rewrite H; simpl;
    rewrite ?orb_true_r; reflexivity.
Qed.

End LanguageMore.


(* ================================================================= *)
(** ** The other methods of the language detector *)

Section DetectorMore.

Variable detect_langs : str -> result (list Language).

Import LanguageDetectorMore.

(** Every detection result carries a string under ['language'] and a
    boolean under ['is_supported']. *)
Lemma detect_language_fields (self : LanguageDetector) (text : str) :
  exists d language supported,
    detect_language detect_langs self text = Ok d /\
    getitem d (lit "language") = Ok (VStr language) /\
    getitem d (lit "is_supported") = Ok (VBool supported).
Proof.
  unfold detect_language. destruct (is_blank text).
  - do 3 eexists. repeat split; reflexivity.
  - destruct (detect_langs (strip text)) as [[|top rest] | e]; simpl.
    + do 3 eexists. repeat split; reflexivity.
    + do 3 eexists. repeat split; reflexivity.
    + destruct (exn_cls e); do 3 eexists; repeat split; reflexivity.
Qed.

(** X16: [is_supported_language] never raises and answers with a boolean, which
    is false on a blank text. *)
Theorem is_supported_language_total (self : LanguageDetector) (text : str) :
  (exists b, is_supported_language detect_langs self text = Ok (VBool b)) /\
  (whitespace_only text ->
   is_supported_language detect_langs self text = Ok (VBool false)).
Proof.
  unfold is_supported_language. split.
  - destruct (detect_language_fields self text) as [d [l [b [Hd [_ Hb]]]]].
    exists b. rewrite Hd. exact Hb.
  - intro H. apply is_blank_iff in H. unfold detect_language. rewrite H. reflexivity.
Qed.

Lemma detect_batch_from_spec (self : LanguageDetector) (texts : list str)
  (acc : list pydict) :
  exists ds,
    detect_batch_from detect_langs self texts acc = Ok (acc ++ ds) /\
    Forall2 (fun t d => detect_language detect_langs self t = Ok d) texts ds.
Proof.
  revert acc. induction texts as [|t texts IH]; intro acc; simpl.
  - exists []. split; [now rewrite app_nil_r | constructor].
  - destruct (detect_language_fields self t) as [d [_ [_ [Hd _]]]].
    rewrite Hd. simpl. destruct (IH (acc ++ [d])) as [ds [H1 H2]].
    exists (d :: ds). split; [now rewrite H1, <- app_assoc | now constructor].
Qed.

(** X17: [detect_batch] never raises and returns, in order, one result per text:
    the result of [detect_language] on that text. *)
Theorem detect_batch_pointwise (self : LanguageDetector) (texts : list str) :
  exists ds,
    detect_batch detect_langs self texts = Ok ds /\
    List.length ds = List.length texts /\
    Forall2 (fun t d => detect_language detect_langs self t = Ok d) texts ds.
Proof.
  destruct (detect_batch_from_spec self texts []) as [ds [H1 H2]].
  exists ds. split; [exact H1|]. split; [|exact H2].
  symmetry. exact (Forall2_length H2).
Qed.








End DetectorMore.

(* ================================================================= *)
(** ** Construction and batches of the sentiment analyzer *)

Section AnalyzerBatches.

Import SentimentAnalyzerMore.

Lemma analyze_batch_from_spec (self : SentimentAnalyzer) (texts : list str)
  (acc : list pydict) :
  exists ds,
    analyze_batch_from self texts acc = Ok (acc ++ ds) /\
    Forall2 (fun t d => analyze_sentiment self t = Ok d) texts ds.
Proof.
  revert acc. induction texts as [|t texts IH]; intro acc; simpl.
  - exists []. split; [now rewrite app_nil_r | constructor].
  - destruct (analyze_sentiment_returns self t) as [d [Hd _]].
    rewrite Hd. simpl. destruct (IH (acc ++ [d])) as [ds [H1 H2]].
    exists (d :: ds). split; [now rewrite H1, <- app_assoc | now constructor].
Qed.

(** X8: [analyze_batch] never raises, whatever the pipeline does, and returns,
    in order, one result per text: the result of [analyze_sentiment] on it. *)
Theorem analyze_batch_pointwise (self : SentimentAnalyzer) (texts : list str) :
  exists ds,
    analyze_batch self texts = Ok ds /\
    List.length ds = List.length texts /\
    Forall2 (fun t d => analyze_sentiment self t = Ok d) texts ds.
Proof.
  destruct (analyze_batch_from_spec self texts []) as [ds [H1 H2]].
  exists ds. split; [exact H1|]. split; [|exact H2].
  symmetry. exact (Forall2_length H2).
Qed.

Variable pipeline : str -> result (str -> result (list clf_item)).

(** X9: Constructing an analyzer succeeds exactly when the requested model or
    the multilingual BERT fallback loads; when both fail the error raised is
    that of the fallback; and after a fallback the object holds the fallback
    classifier while still naming the requested model. *)
Theorem analyzer_construction (requested : str) :
  ((exists self, __init__ pipeline requested = Ok self) <->
   (exists c, pipeline requested = Ok c) \/
   (exists c, pipeline fallback_model_name = Ok c)) /\
  (forall self, __init__ pipeline requested = Ok self ->
     model_name self = requested /\
     (pipeline requested = Ok (classifier self) \/
      (exists e, pipeline requested = Raise e) /\
      pipeline fallback_model_name = Ok (classifier self))) /\
  (forall e e', pipeline requested = Raise e ->
     pipeline fallback_model_name = Raise e' ->
     __init__ pipeline requested = Raise e').
Proof.
  unfold __init__, _load_model. split; [|split].
  - split.
    + intros [self H]. destruct (pipeline requested) as [c | e].
      * left. now exists c.
      * right. simpl in H. destruct (pipeline fallback_model_name) as [c | e'].
        -- now exists c.
        -- discriminate.
    + intros [[c H] | [c H]].
      * rewrite H. simpl. eexists. reflexivity.
      * destruct (pipeline requested) as [c' | e]; simpl.
        -- eexists. reflexivity.
        -- rewrite H. simpl. eexists. reflexivity.
  - intros self H. destruct (pipeline requested) as [c | e]; simpl in H.
    + injection H as <-. split; [reflexivity | now left].
    + destruct (pipeline fallback_model_name) as [c | e']; simpl in H;
        [|discriminate].
      injection H as <-. split; [reflexivity|]. right. split; [now exists e | reflexivity].
  - intros e e' H H'. now rewrite H, H'.
Qed.

End AnalyzerBatches.

Lemma analyzer_construction_witness :
  exists self,
    SentimentAnalyzerMore.__init__ Examples.offline_pipeline (lit "my/model") = Ok self.
Proof.
  apply (proj1 (analyzer_construction Examples.offline_pipeline (lit "my/model"))).
  right. eexists. reflexivity.
Defined.

Section Detections.

Variable detect_langs : str -> result (list Language).

(** X19: A successful detection lists at most three candidates, the first of
    which is the reported language with the reported confidence. *)
Theorem all_detections_shape (self : LanguageDetector) (text : str)
  (top : Language) (rest : list Language) :
  is_blank text = false ->
  detect_langs (strip text) = Ok (top :: rest) ->
  exists d others,
    detect_language detect_langs self text = Ok d /\
    getitem d (lit "all_detections")
      = Ok (VList (detection_entry self top :: others)) /\
    List.length others = Nat.min 2 (List.length rest) /\
    getitem d (lit "language_code") = Ok (VStr (lang top)) /\
    getitem d (lit "confidence") = Ok (VFloat (prob top)) /\
    getitem d (lit "language") = Ok (VStr (language_name self (lang top))) /\
    getitem d (lit "error") = Ok VNone.
Proof.
  intros Hb Hd. unfold detect_language. rewrite Hb, Hd. simpl.
  eexists. exists (map (detection_entry self) (firstn 2 rest)).
  split; [reflexivity|]. split; [reflexivity|].
  split; [now rewrite length_map, length_firstn|].
  repeat split.
Qed.

End Detections.

Lemma all_detections_shape_witness :
  exists d others,
    detect_language Examples.steady_detect_langs init (lit "namaste") = Ok d /\
    getitem d (lit "all_detections")
      = Ok (VList (detection_entry init {| lang := lit "hi"; prob := 9 # 10 |} :: others)) /\
    List.length others = Nat.min 2 1 /\
    getitem d (lit "language_code") = Ok (VStr (lit "hi")) /\
    getitem d (lit "confidence") = Ok (VFloat (9 # 10)) /\
    getitem d (lit "language") = Ok (VStr (language_name init (lit "hi"))) /\
    getitem d (lit "error") = Ok VNone.
Proof.
  apply (all_detections_shape Examples.steady_detect_langs init (lit "namaste")
           {| lang := lit "hi"; prob := 9 # 10 |}
           [{| lang := lit "en"; prob := 1 # 10 |}]); reflexivity.
Defined.

(* ================================================================= *)
(** ** Voice input and speech language codes *)

Section SpeechFacts.

Import Speech.

(** X20: [analyze_voice_input], given the two fallback classifiers, returns
    [None] exactly on the whitespace-only texts; otherwise it returns the
    text with both analyses, and the sentiment analysis then always has its
    four keys. *)
Theorem voice_input_analysis (text : str) :
  (whitespace_only text <->
   analyze_voice_input text simple_sentiment_analysis detect_language_simple = VNone) /\
  (~ whitespace_only text ->
   analyze_voice_input text simple_sentiment_analysis detect_language_simple
   = VDict [(lit "text", VStr text);
            (lit "language", VDict (detect_language_simple text));
            (lit "sentiment", VDict (simple_sentiment_analysis text))] /\
   dict_keys (simple_sentiment_analysis text)
   = [lit "sentiment"; lit "confidence"; lit "positive_score"; lit "negative_score"]).
Proof.
  unfold analyze_voice_input. destruct (is_blank text) eqn:E.
  - apply is_blank_iff in E. split; [tauto | contradiction].
  - assert (Hn : ~ whitespace_only text).
    { intro H. apply is_blank_iff in H. congruence. }
    split; [split; [contradiction | discriminate]|].
    intros _. split; [reflexivity|].
    assert (Hne : text <> []) by (intros ->; apply Hn; constructor).
    unfold simple_sentiment_analysis. rewrite (nonempty_not_is_empty text Hne).
    set (p := count_words positive_words (lower text)).
    set (n := count_words negative_words (lower text)).
    destruct (p >? n)%Z; [reflexivity|]. destruct (n >? p)%Z; reflexivity.
Qed.

(** X21: The speech language code is hi-IN for "Hindi", te-IN for "Telugu" and
    en-US for every other name, "English" or not. *)
Theorem speech_language_code (language_name : str) :
  get_language_code_for_speech (lit "Hindi") = lit "hi-IN" /\
  get_language_code_for_speech (lit "Telugu") = lit "te-IN" /\
  (language_name <> lit "Hindi" -> language_name <> lit "Telugu" ->
   get_language_code_for_speech language_name = lit "en-US").
Proof.
  split; [reflexivity|]. split; [reflexivity|].
  intros H1 H2. unfold get_language_code_for_speech, dict_get. simpl.
  apply eqb_neq in H1. apply eqb_neq in H2.
  change (eqb language_name (lit "Hindi") = false) in H1.
  change (eqb language_name (lit "Telugu") = false) in H2.
  destruct (eqb language_name (lit "English")); [reflexivity|].
  now rewrite H1, H2.
Qed.

End SpeechFacts.

Lemma voice_input_analysis_witness :
  dict_keys (simple_sentiment_analysis (lit "so happy"))
  = [lit "sentiment"; lit "confidence"; lit "positive_score"; lit "negative_score"].
Proof.
  apply (proj2 (voice_input_analysis (lit "so happy"))).
  intro H. inversion H as [|c t Hc _]. vm_compute in Hc. discriminate.
Defined.

Lemma speech_language_code_witness :
  Speech.get_language_code_for_speech (lit "Unknown") = lit "en-US".
Proof.
  apply (proj2 (proj2 (speech_language_code (lit "Unknown")))); discriminate.
Defined.

(* ================================================================= *)
(** ** The sentiment arithmetic of the video tab *)

Section VideoFacts.

Import Video.

Lemma count_in_nonneg (expressions selection : list str) :
  (0 <= count_in expressions selection)%Z.
Proof. unfold count_in. lia. Qed.

(** X22: The facial sentiment of a non-empty selection has confidence 70, 75
    or 85; it is NEUTRAL, with
    confidence 70, exactly when as many positive as negative expressions
    are selected. *)
Theorem facial_sentiment_values (selection : list str) :
  selection <> [] ->
  let p := count_in positive_expressions selection in
  let n := count_in negative_expressions selection in
  exists sentiment confidence,
    facial selection = (sentiment, confidence) /\
    (confidence = 70 \/ confidence = 75 \/ confidence = 85)%Z /\
    (sentiment = lit "NEUTRAL" <-> p = n) /\
    (sentiment = lit "POSITIVE" <-> p > n)%Z /\
    (confidence = 70%Z <-> p = n) /\
    (confidence = 75%Z <-> (p = 1 /\ n = 0) \/ (p = 0 /\ n = 1))%Z.
Proof.
  intros _ p n. unfold facial. fold p n.
  pose proof (count_in_nonneg positive_expressions selection) as Hp.
  pose proof (count_in_nonneg negative_expressions selection) as Hn.
  fold p in Hp. fold n in Hn. clearbody p n.
  destruct (p >? n)%Z eqn:E1; [|destruct (n >? p)%Z eqn:E2].
  - exists (lit "POSITIVE"), (Z.min 85 (60 + p * 15))%Z. split; [reflexivity|].
    repeat split; try lia; try discriminate; try (intro; exfalso; lia); auto.
  - exists (lit "NEGATIVE"), (Z.min 85 (60 + n * 15))%Z. split; [reflexivity|].
    repeat split; try lia; try discriminate; try (intro; exfalso; lia); auto.
  - exists (lit "NEUTRAL"), 70%Z. split; [reflexivity|].
    repeat split; try lia; try discriminate; try (intro; exfalso; lia); auto.
Qed.

End VideoFacts.

Section CombinedFacts.

Import Video.

Local Open Scope Q_scope.

(** X23: The combined video sentiment, for an audio and a facial sentiment among
    the three labels: it is computed without error; it is never the
    opposite of the audio nor of the facial sentiment; it is the common
    label when both agree and NEUTRAL when they are opposite; a non-neutral
    audio sentiment prevails over a neutral face and a non-neutral face over
    a neutral audio; the confidence is 65, 78, 82 or 90. *)
Theorem combined_sentiment_table (audio face : str) :
  In audio [lit "POSITIVE"; lit "NEUTRAL"; lit "NEGATIVE"] ->
  In face [lit "POSITIVE"; lit "NEUTRAL"; lit "NEGATIVE"] ->
  exists score sentiment confidence,
    combined audio face = Ok (score, sentiment, confidence) /\
    In sentiment [lit "POSITIVE"; lit "NEUTRAL"; lit "NEGATIVE"] /\
    ~ opposite sentiment audio /\ ~ opposite sentiment face /\
    (audio = face -> sentiment = audio) /\
    (opposite audio face -> sentiment = lit "NEUTRAL") /\
    (face = lit "NEUTRAL" -> sentiment = audio) /\
    (audio = lit "NEUTRAL" -> sentiment = face) /\
    (confidence == 65 \/ confidence == 78 \/ confidence == 82 \/ confidence == 90).
Proof.
  unfold opposite.
  intros [<- | [<- | [<- | []]]] [<- | [<- | [<- | []]]];
    (eexists; eexists; eexists; split; [vm_compute; reflexivity|]);
    (split; [simpl; tauto|]);
    repeat split;
    try (intros [[H1 H2] | [H1 H2]]; discriminate);
    try (intro H; first [reflexivity | discriminate]);
    try (left; reflexivity);
    try (right; left; reflexivity);
    try (right; right; left; reflexivity);
    try (right; right; right; reflexivity).
Qed.

End CombinedFacts.

(* ================================================================= *)
(** ** The batch of app.py, row by row *)

Section BatchRows.

Variable detect_langs : str -> result (list Language).
Variable sentiment_analyzer : SentimentAnalyzer.
Variable language_detector : LanguageDetector.




(** X24: A row whose analysis failed (blank text, pipeline error) is kept in the
    table: its sentiment is ERROR, its confidence and the three scores are 0
    and the message is in the Error column. *)
Theorem failed_row_is_reported (text message : str) (detected_language : pydict)
  (language confidence : pyval) :
  message <> [] ->
  getitem detected_language (lit "language") = Ok language ->
  getitem detected_language (lit "confidence") = Ok confidence ->
  App.result_row text detected_language (degraded_sentiment message)
  = Ok [(lit "Original_Text", VStr text);
        (lit "Detected_Language", language);
        (lit "Language_Confidence", confidence);
        (lit "Sentiment", VStr (lit "ERROR"));
        (lit "Sentiment_Confidence", VInt 0);
        (lit "Positive_Score", VInt 0);
        (lit "Neutral_Score", VInt 0);
        (lit "Negative_Score", VInt 0);
        (lit "Error", VStr message)].
Proof.
  intros Hm Hl Hc. unfold App.result_row, degraded_sentiment. rewrite Hl, Hc. simpl.
  destruct message; [contradiction | reflexivity].
Qed.



End BatchRows.

Section BatchRoundTrip.

Variable detect_langs : str -> result (list Language).
Variable sentiment_analyzer : SentimentAnalyzer.
Variable language_detector : LanguageDetector.



(** X26: A CSV that has a text column but no row at all ends in the error
    handler: the empty result table has no 'Sentiment' column to count. *)
Theorem batch_of_no_rows (uploaded_file : UploadedFile) (df : DataFrame)
  (before after : list str) (col : str) :
  parsed uploaded_file = Ok df ->
  columns df = before ++ col :: after ->
  (forall c, In c before -> ~ substring (lit "text") (lower c)) ->
  substring (lit "text") (lower col) ->
  rows df = [] ->
  run (App.analyze_batch_text detect_langs sentiment_analyzer language_detector
         uploaded_file)
  = ([st_info (lit "Using column '" ++ col ++ lit "' for analysis");
      st_progress 0%Q; st_empty; st_empty; st_empty;
      st_subheader (lit "Batch Analysis Results");
      st_dataframe [];
      st_error (lit "Error processing CSV file: 'Sentiment'")], Ok tt).
Proof.
  intros Hparsed Hcols Hbefore Hcol Hrows.
  unfold run, App.analyze_batch_text, ui_try, ui_bind at 1, lift at 1.
  rewrite Hparsed.
  replace (filter is_text_column (columns df)) with (col :: filter is_text_column after)
    by (rewrite Hcols; symmetry; now apply first_text_column).
  unfold App.analyze_with_column. rewrite Hrows. reflexivity.
Qed.

End BatchRoundTrip.

Lemma failed_row_is_reported_witness :
  App.result_row (lit " ")
    (unknown_language (lit "Empty text provided"))
    (degraded_sentiment (lit "Empty text provided"))
  = Ok [(lit "Original_Text", VStr (lit " "));
        (lit "Detected_Language", VStr (lit "Unknown"));
        (lit "Language_Confidence", VFloat 0%Q);
        (lit "Sentiment", VStr (lit "ERROR"));
        (lit "Sentiment_Confidence", VInt 0);
        (lit "Positive_Score", VInt 0);
        (lit "Neutral_Score", VInt 0);
        (lit "Negative_Score", VInt 0);
        (lit "Error", VStr (lit "Empty text provided"))].
Proof.
  apply failed_row_is_reported; [discriminate | reflexivity | reflexivity].
Defined.


Lemma batch_of_no_rows_witness :
  run (App.analyze_batch_text Examples.steady_detect_langs Examples.steady_analyzer
         init (Examples.upload (lit "empty.csv")
                 {| columns := [lit "text"]; rows := [] |}))
  = ([st_info (lit "Using column '" ++ lit "text" ++ lit "' for analysis");
      st_progress 0%Q; st_empty; st_empty; st_empty;
      st_subheader (lit "Batch Analysis Results");
      st_dataframe [];
      st_error (lit "Error processing CSV file: 'Sentiment'")], Ok tt).
Proof.
  apply (batch_of_no_rows Examples.steady_detect_langs Examples.steady_analyzer init
           (Examples.upload (lit "empty.csv") {| columns := [lit "text"]; rows := [] |})
           {| columns := [lit "text"]; rows := [] |} [] [] (lit "text")).
  - reflexivity.
  - reflexivity.
  - intros c [].
  - apply contains_spec. vm_compute. reflexivity.
  - reflexivity.
Defined.

Lemma combined_sentiment_table_witness :
  exists score sentiment confidence,
    Video.combined (lit "POSITIVE") (lit "NEGATIVE") = Ok (score, sentiment, confidence) /\
    In sentiment [lit "POSITIVE"; lit "NEUTRAL"; lit "NEGATIVE"] /\
    ~ opposite sentiment (lit "POSITIVE") /\ ~ opposite sentiment (lit "NEGATIVE") /\
    (lit "POSITIVE" = lit "NEGATIVE" -> sentiment = lit "POSITIVE") /\
    (opposite (lit "POSITIVE") (lit "NEGATIVE") -> sentiment = lit "NEUTRAL") /\
    (lit "NEGATIVE" = lit "NEUTRAL" -> sentiment = lit "POSITIVE") /\
    (lit "POSITIVE" = lit "NEUTRAL" -> sentiment = lit "NEGATIVE") /\
    (confidence == 65 \/ confidence == 78 \/ confidence == 82 \/ confidence == 90)%Q.
Proof.
  apply (combined_sentiment_table (lit "POSITIVE") (lit "NEGATIVE")); simpl; auto.
Defined.

(* ================================================================= *)
(** ** Truncation and growth of the input *)

Section Truncation.

Lemma rstrip_after_visible (a x : str) (c : codepoint) :
  isspace c = false -> rstrip (a ++ c :: x) = a ++ c :: rstrip x.
Proof.
  intro Hc. unfold rstrip. rewrite rev_app_distr. simpl rev.
  rewrite <- app_assoc. simpl app.
  assert (E : lstrip (rev x ++ c :: rev a) = lstrip (rev x) ++ c :: rev a).
  { destruct (lstrip (rev x)) as [|y l] eqn:El.
    - apply lstrip_nil_iff in El. rewrite lstrip_app_whitespace by exact El.
      simpl. now rewrite Hc.
    - rewrite lstrip_app_right by (rewrite El; discriminate). now rewrite El. }
  rewrite E, rev_app_distr. simpl rev. rewrite rev_involutive.
  now rewrite <- app_assoc.
Qed.

(** What the pipeline sees of a long text: when the first 512 characters
    begin and end with a visible character, nothing after them matters. *)
Lemma prepare_text_truncates (c0 c1 : codepoint) (middle rest : str) :
  isspace c0 = false -> isspace c1 = false ->
  List.length (c0 :: middle ++ [c1]) = 512%nat ->
  is_blank ((c0 :: middle ++ [c1]) ++ rest) = false /\
  prepare_text ((c0 :: middle ++ [c1]) ++ rest) = c0 :: middle ++ [c1].
Proof.
  intros H0 H1 Hlen.
  assert (Hs : strip ((c0 :: middle ++ [c1]) ++ rest)
               = (c0 :: middle ++ [c1]) ++ rstrip rest).
  { unfold strip. simpl lstrip. rewrite H0.
    change (c0 :: (middle ++ [c1]) ++ rest) with ((c0 :: middle ++ [c1]) ++ rest).
    change (c0 :: middle ++ [c1]) with ((c0 :: middle) ++ [c1]).
    rewrite <- !app_assoc. simpl app.
    change (c0 :: middle ++ c1 :: rest) with ((c0 :: middle) ++ c1 :: rest).
    rewrite (rstrip_after_visible (c0 :: middle) rest c1 H1). reflexivity. }
  split.
  - unfold is_blank. rewrite Hs. reflexivity.
  - unfold prepare_text, slice_to. rewrite Hs.
    destruct (512 <? List.length ((c0 :: middle ++ [c1]) ++ rstrip rest))%nat eqn:E.
    + rewrite firstn_app, Hlen. replace (512 - 512)%nat with 0%nat by lia.
      rewrite <- Hlen, firstn_all. simpl firstn. now rewrite app_nil_r.
    + apply Nat.ltb_ge in E. rewrite length_app, Hlen in E.
      destruct (rstrip rest); [now rewrite app_nil_r | simpl in E; lia].
Qed.

(** X3: Long inputs are silently truncated: two texts that share their first
    512 characters, the first and the last of which are visible, get the
    same analysis. *)
Theorem long_text_is_truncated (self : SentimentAnalyzer) (c0 c1 : codepoint)
  (middle rest rest' : str) :
  isspace c0 = false -> isspace c1 = false ->
  List.length (c0 :: middle ++ [c1]) = 512%nat ->
  analyze_sentiment self ((c0 :: middle ++ [c1]) ++ rest)
  = analyze_sentiment self ((c0 :: middle ++ [c1]) ++ rest').
Proof.
  intros H0 H1 Hlen. unfold analyze_sentiment.
  destruct (prepare_text_truncates c0 c1 middle rest H0 H1 Hlen) as [B P].
  destruct (prepare_text_truncates c0 c1 middle rest' H0 H1 Hlen) as [B' P'].
  now rewrite B, B', P, P'.
Qed.

Lemma substring_lower (w t : str) : substring w t -> substring (lower w) (lower t).
Proof.
  intros [a [b ->]]. exists (lower a), (lower b). unfold lower. now rewrite !map_app.
Qed.

Lemma count_words_monotone (words : list str) (t t' : str) :
  substring t t' -> (count_words words t <= count_words words t')%Z.
Proof.
  intro H. induction words as [|w words IH]; [reflexivity|].
  rewrite !count_words_cons.
  destruct (contains w t) eqn:E.
  - apply contains_spec in E.
    assert (E' : contains w t' = true).
    { apply contains_spec. exact (substring_trans w t t' E H). }
    rewrite E'. lia.
  - destruct (contains w t'); lia.
Qed.

(** X12: Extending a text never loses a keyword: both keyword counts of the
    fallback classifier can only grow when text is added around the input. *)
Theorem keyword_counts_grow_with_text (text before after : str) :
  text <> [] ->
  exists p n p' n',
    getitem (simple_sentiment_analysis text) (lit "positive_score") = Ok (VInt p) /\
    getitem (simple_sentiment_analysis text) (lit "negative_score") = Ok (VInt n) /\
    getitem (simple_sentiment_analysis (before ++ text ++ after)) (lit "positive_score")
    = Ok (VInt p') /\
    getitem (simple_sentiment_analysis (before ++ text ++ after)) (lit "negative_score")
    = Ok (VInt n') /\
    (p <= p')%Z /\ (n <= n')%Z.
Proof.
  intro Hne.
  assert (Hne' : before ++ text ++ after <> []).
  { destruct before; simpl; [|discriminate].
    destruct text; [contradiction | discriminate]. }
  assert (Hsub : substring (lower text) (lower (before ++ text ++ after))).
  { apply substring_lower. now exists before, after. }
  pose proof (count_words_monotone positive_words _ _ Hsub) as Hp.
  pose proof (count_words_monotone negative_words _ _ Hsub) as Hn.
  unfold simple_sentiment_analysis.
  rewrite (nonempty_not_is_empty text Hne), (nonempty_not_is_empty _ Hne').
  set (p := count_words positive_words (lower text)) in *.
  set (n := count_words negative_words (lower text)) in *.
  set (p' := count_words positive_words (lower (before ++ text ++ after))) in *.
  set (n' := count_words negative_words (lower (before ++ text ++ after))) in *.
  exists p, n, p', n'. clearbody p n p' n'.
  destruct (p >? n)%Z, (n >? p)%Z, (p' >? n')%Z, (n' >? p')%Z;
    repeat split; assumption.
Qed.

End Truncation.

Lemma long_text_is_truncated_witness :
  analyze_sentiment Examples.steady_analyzer
    ((97 :: repeat 32 510 ++ [98]) ++ lit " and more")%N
  = analyze_sentiment Examples.steady_analyzer
    ((97 :: repeat 32 510 ++ [98]) ++ [])%N.
Proof.
  apply (long_text_is_truncated Examples.steady_analyzer 97%N 98%N
           (repeat 32%N 510) (lit " and more") []).
  - reflexivity.
  - reflexivity.
  - vm_compute. reflexivity.
Defined.

Lemma keyword_counts_grow_with_text_witness :
  exists p n p' n',
    getitem (simple_sentiment_analysis (lit "good")) (lit "positive_score") = Ok (VInt p) /\
    getitem (simple_sentiment_analysis (lit "good")) (lit "negative_score") = Ok (VInt n) /\
    getitem (simple_sentiment_analysis (lit "not " ++ lit "good" ++ lit ", bad"))
      (lit "positive_score") = Ok (VInt p') /\
    getitem (simple_sentiment_analysis (lit "not " ++ lit "good" ++ lit ", bad"))
      (lit "negative_score") = Ok (VInt n') /\
    (p <= p')%Z /\ (n <= n')%Z.
Proof.
  apply (keyword_counts_grow_with_text (lit "good") (lit "not ") (lit ", bad")).
  discriminate.
Defined.

Lemma facial_sentiment_values_witness :
  exists sentiment confidence,
    Video.facial [lit "Happy/Smiling"; lit "Neutral"] = (sentiment, confidence) /\
    (confidence = 70 \/ confidence = 75 \/ confidence = 85)%Z /\
    (sentiment = lit "NEUTRAL" <->
     Video.count_in Video.positive_expressions [lit "Happy/Smiling"; lit "Neutral"]
     = Video.count_in Video.negative_expressions [lit "Happy/Smiling"; lit "Neutral"]) /\
    (sentiment = lit "POSITIVE" <->
     Video.count_in Video.positive_expressions [lit "Happy/Smiling"; lit "Neutral"]
     > Video.count_in Video.negative_expressions [lit "Happy/Smiling"; lit "Neutral"])%Z /\
    (confidence = 70%Z <->
     Video.count_in Video.positive_expressions [lit "Happy/Smiling"; lit "Neutral"]
     = Video.count_in Video.negative_expressions [lit "Happy/Smiling"; lit "Neutral"]) /\
    (confidence = 75%Z <->
     (Video.count_in Video.positive_expressions [lit "Happy/Smiling"; lit "Neutral"] = 1 /\
      Video.count_in Video.negative_expressions [lit "Happy/Smiling"; lit "Neutral"] = 0) \/
     (Video.count_in Video.positive_expressions [lit "Happy/Smiling"; lit "Neutral"] = 0 /\
      Video.count_in Video.negative_expressions [lit "Happy/Smiling"; lit "Neutral"] = 1))%Z.
Proof.
  apply (facial_sentiment_values [lit "Happy/Smiling"; lit "Neutral"]). discriminate.
Defined.
